(** * LinkedIn export processor: CSV files into SQLite tables

    A shallow embedding of [linkedin_data_processor.py] (class
    [LinkedInDataProcessor]) together with the parts of Python, pandas and
    sqlite3 that the class relies on, followed by the properties of the
    ingestion pipeline.

    Strings are sequences of 8-bit characters ([string]).  Python dicts keep
    insertion order and are association lists here; the tables of the
    database are a finite map from (quoted) table name to table. *)

From Stdlib Require Import Ascii String ZArith List Bool Lia.
From stdpp Require Import gmap strings list fin_maps.

Local Open Scope string_scope.
Local Open Scope list_scope.

(** ** Python strings *)

Module Str.

Definition chars (s : string) : list ascii := list_ascii_of_string s.
Definition of_chars (l : list ascii) : string := string_of_list_ascii l.

Definition between (lo hi : N) (c : ascii) : bool :=
  ((lo <=? N_of_ascii c) && (N_of_ascii c <=? hi))%N.

Definition is_upper : ascii -> bool := between 65 90.
Definition is_lower : ascii -> bool := between 97 122.
Definition is_digit : ascii -> bool := between 48 57.
Definition is_underscore (c : ascii) : bool := Ascii.eqb c "_".

(** The character class [[a-zA-Z0-9_]]. *)
Definition is_word (c : ascii) : bool :=
  is_lower c || is_upper c || is_digit c || is_underscore c.

(** [string.whitespace]: space, \t, \n, \v, \f, \r. *)
Definition is_space (c : ascii) : bool :=
  Ascii.eqb c " " || between 9 13 c.

Definition lower_char (c : ascii) : ascii :=
  if is_upper c then ascii_of_N (N_of_ascii c + 32) else c.

(** [s.lower()] (on the ASCII letters). *)
Definition lower (s : string) : string := of_chars (map lower_char (chars s)).

(** [re.sub('[^...]', repl, s)] for a negated one-character class: every
    character outside [cls] is replaced. *)
Definition re_sub_not_in (cls : ascii -> bool) (repl : ascii) (s : string) : string :=
  of_chars (map (fun c => if cls c then c else repl) (chars s)).

(** [re.sub('c+', 'c', s)]: each maximal run of [c] becomes one [c].
    [inside] tells whether the previous character belonged to a run. *)
Fixpoint squeeze (c : ascii) (inside : bool) (l : list ascii) : list ascii :=
  match l with
  | [] => []
  | a :: r =>
      if Ascii.eqb a c
      then (if inside then squeeze c true r else c :: squeeze c true r)
      else a :: squeeze c false r
  end.

Definition re_sub_runs (c : ascii) (s : string) : string :=
  of_chars (squeeze c false (chars s)).

Fixpoint lstrip_chars (p : ascii -> bool) (l : list ascii) : list ascii :=
  match l with
  | [] => []
  | a :: r => if p a then lstrip_chars p r else l
  end.

Definition rstrip_chars (p : ascii -> bool) (l : list ascii) : list ascii :=
  rev (lstrip_chars p (rev l)).

(** [s.strip(chars)]: the characters of the set [p] are removed from both
    ends. *)
Definition strip (p : ascii -> bool) (s : string) : string :=
  of_chars (rstrip_chars p (lstrip_chars p (chars s))).

(** [s.replace(a, b)] for one-character [a] and [b]. *)
Definition replace_char (a b : ascii) (s : string) : string :=
  of_chars (map (fun c => if Ascii.eqb c a then b else c) (chars s)).

(** [x in xs] for a list of strings. *)
Definition mem (x : string) (xs : list string) : bool :=
  existsb (String.eqb x) xs.

(** The double quote character. *)
Definition dquote : ascii := "034".

(** [s] between two double quotes. *)
Definition quote (s : string) : string := String dquote (s +:+ String dquote "").

End Str.

(** ** The column normaliser: [_normalize_column_name] *)

Definition _normalize_column_name (col_name : string) : string :=
  (* Remove special characters (except underscore) *)
  let normalized := Str.re_sub_not_in Str.is_word "_" col_name in
  (* Remove leading/trailing underscores *)
  let normalized := Str.strip Str.is_underscore normalized in
  (* Replace multiple underscores with single underscore *)
  let normalized := Str.re_sub_runs "_" normalized in
  (* Make lowercase *)
  let normalized := Str.lower normalized in
  (* Handle date columns specially *)
  let normalized :=
    if String.eqb normalized "date" then "date_col"
    else if Str.mem normalized ["from"; "to"; "text"] then "col_" +:+ normalized
    else normalized in
  (* 'date' in normalized and normalized != 'date_col': normalized = normalized.
     The debug print for 'text' changes no state. *)
  normalized.

(** The normalised name in other words: the alphanumeric words of the
    header, in lower case, joined by single underscores, with four reserved
    names remapped. *)

Module Words.

Definition is_alnum (c : ascii) : bool :=
  Str.is_lower c || Str.is_upper c || Str.is_digit c.

Definition starts_with (sep : ascii -> bool) (l : list ascii) : bool :=
  match l with
  | c :: _ => sep c
  | [] => false
  end.

(** The maximal runs of characters that are not separators. *)
Fixpoint tokens (sep : ascii -> bool) (l : list ascii) : list (list ascii) :=
  match l with
  | [] => []
  | c :: r =>
      if sep c then tokens sep r
      else
        match r with
        | [] => [[c]]
        | d :: _ =>
            if sep d then [c] :: tokens sep r
            else
              match tokens sep r with
              | t :: ts => (c :: t) :: ts
              | [] => [[c]]
              end
        end
  end.

Fixpoint join (u : ascii) (ts : list (list ascii)) : list ascii :=
  match ts with
  | [] => []
  | [t] => t
  | t :: rest => t ++ u :: join u rest
  end.

Definition words (header : string) : list (list ascii) :=
  map (map Str.lower_char) (tokens (fun c => negb (is_alnum c)) (Str.chars header)).

Definition cleaned (header : string) : string :=
  Str.of_chars (join "_" (words header)).

Definition remap (n : string) : string :=
  if String.eqb n "date" then "date_col"
  else if String.eqb n "from" then "col_from"
  else if String.eqb n "to" then "col_to"
  else if String.eqb n "text" then "col_text"
  else n.

End Words.

(** ** Python exceptions and results *)

Module Py.

(** The exception classes that the pipeline can meet.  All of them derive
    from [Exception]. *)
Inductive exn : Type :=
| ParserError            (* pandas.errors.ParserError *)
| EmptyDataError         (* pandas.errors.EmptyDataError *)
| UnicodeDecodeError
| OSError
| ValueError
| IndexError
| KeyError
| AttributeError
| OverflowError
| OperationalError       (* sqlite3.OperationalError *)
| InterfaceError         (* sqlite3.InterfaceError *)
| ProgrammingError.      (* sqlite3.ProgrammingError *)

(** [isinstance(e, pd.errors.ParserError)] *)
Definition is_ParserError (e : exn) : bool :=
  match e with ParserError => true | _ => false end.

(** [isinstance(e, sqlite3.Error)] *)
Definition is_sqlite3_Error (e : exn) : bool :=
  match e with
  | OperationalError | InterfaceError | ProgrammingError => true
  | _ => false
  end.

(** [isinstance(e, Exception)] *)
Definition is_Exception (e : exn) : bool := true.

Inductive result (A : Type) : Type :=
| Ok (a : A)
| Raise (e : exn).
Arguments Ok {A} a.
Arguments Raise {A} e.

(** [try: m  except <cls>: h] on a pure computation. *)
Definition try_except {A : Type} (m : result A) (cls : exn -> bool)
    (h : exn -> result A) : result A :=
  match m with
  | Ok a => Ok a
  | Raise e => if cls e then h e else Raise e
  end.

(** A Python dict: keys in insertion order; assigning to a key that is
    already present keeps its place. *)
Definition dict (V : Type) : Type := list (string * V).

Fixpoint dict_set {V : Type} (k : string) (v : V) (d : dict V) : dict V :=
  match d with
  | [] => [(k, v)]
  | (k', v') :: r =>
      if String.eqb k' k then (k, v) :: r else (k', v') :: dict_set k v r
  end.

Fixpoint dict_get {V : Type} (k : string) (d : dict V) : option V :=
  match d with
  | [] => None
  | (k', v') :: r => if String.eqb k' k then Some v' else dict_get k r
  end.

Definition dict_contains {V : Type} (k : string) (d : dict V) : bool :=
  match dict_get k d with Some _ => true | None => false end.

(** [next((k for k, v in d.items() if v == x), default)] *)
Fixpoint first_key_of (x : string) (d : dict string) (default : string) : string :=
  match d with
  | [] => default
  | (k, v) :: r => if String.eqb v x then k else first_key_of x r default
  end.

End Py.

(** ** pandas: dtypes, frames, missing values *)

Module Pandas.

Inductive dtype : Type :=
| int64 | uint64 | float64 | bool_ | datetime64 | timedelta64 | object_.

(** [pd.api.types.is_integer_dtype] / [is_float_dtype] /
    [is_datetime64_any_dtype] *)
Definition is_integer_dtype (d : dtype) : bool :=
  match d with int64 | uint64 => true | _ => false end.
Definition is_float_dtype (d : dtype) : bool :=
  match d with float64 => true | _ => false end.
Definition is_datetime64_any_dtype (d : dtype) : bool :=
  match d with datetime64 => true | _ => false end.

(** The Python objects found in the cells of a frame, as [iterrows] hands
    them out.  A float other than nan is kept as its literal. *)
Inductive scalar : Type :=
| NoneV                       (* None *)
| NaN                         (* float('nan'), pandas' missing marker *)
| Int (z : Z)                 (* int *)
| Float (literal : string)    (* float *)
| Str (s : string)            (* str *)
| Bool (b : bool)             (* bool *)
| NpInt64 (z : Z)             (* numpy.int64 *)
| NpBool (b : bool).          (* numpy.bool_ *)

(** What a label lookup in a row returns: the cell, or a Series of the
    cells when the label is repeated. *)
Inductive value : Type :=
| Cell (c : scalar)
| SeriesOf (cs : list scalar).

(** [pd.isna] on a scalar. *)
Definition isna (v : scalar) : bool :=
  match v with NoneV | NaN => true | _ => false end.

Record Series : Type := { dtype_of : dtype; values : list scalar }.

(** A frame: the labelled, typed columns in order and the rows in order. *)
Record DataFrame : Type :=
  { columns_of : list (string * dtype); rows : list (list scalar) }.

(** [df.columns] *)
Definition columns (df : DataFrame) : list string := map fst (columns_of df).

(** What [df[col]] selects: a Series, or a frame when the label is
    repeated. *)
Inductive selection : Type :=
| OneColumn (s : Series)
| ManyColumns (labels : list string).

(** The labelled cells of one row. *)
Definition items (labels : list string) (r : list scalar) : list (string * scalar) :=
  combine labels r.

Definition cells_at (labels : list string) (r : list scalar) (key : string) : list scalar :=
  map snd (List.filter (fun lv => String.eqb (fst lv) key) (items labels r)).

(** [row.get(key)]: the cell under [key]; [None] when the row has no such
    label; a Series of the cells when the label is repeated. *)
Definition row_get (labels : list string) (r : list scalar) (key : string) : value :=
  match cells_at labels r key with
  | [] => Cell NoneV
  | [v] => Cell v
  | vs => SeriesOf vs
  end.

(** [df[col]] *)
Definition getitem (df : DataFrame) (col : string) : Py.result selection :=
  match List.filter (fun cd => String.eqb (fst cd) col) (columns_of df) with
  | [] => Py.Raise Py.KeyError
  | [cd] =>
      Py.Ok (OneColumn
               {| dtype_of := snd cd;
                  values := flat_map (fun r => cells_at (columns df) r col) (rows df) |})
  | cds => Py.Ok (ManyColumns (map fst cds))
  end.

(** [df.dropna(subset=labels)]: a row goes when it has a missing value in
    any column whose label is in [subset]. *)
Definition row_has_na (labels subset : list string) (r : list scalar) : bool :=
  existsb (fun lv => Str.mem (fst lv) subset && isna (snd lv)) (items labels r).

Definition dropna (subset : list string) (df : DataFrame) : DataFrame :=
  {| columns_of := columns_of df;
     rows := List.filter (fun r => negb (row_has_na (columns df) subset r)) (rows df) |}.

(** [pd.DataFrame(data, columns=header)] for lists of strings: the rows
    are padded with [None] to the longest one, whose length must be the
    number of labels; every column is of dtype object. *)
Definition width (data : list (list string)) : nat :=
  fold_right (fun r w => Nat.max (List.length r) w) 0 data.

Definition pad_row (w : nat) (r : list string) : list scalar :=
  map Str r ++ repeat NoneV (w - List.length r).

Definition DataFrame_of_records (data : list (list string)) (header : list string)
    : Py.result DataFrame :=
  match data with
  | [] => Py.Ok {| columns_of := map (fun h => (h, object_)) header; rows := [] |}
  | _ =>
      if Nat.eqb (width data) (List.length header)
      then Py.Ok {| columns_of := map (fun h => (h, object_)) header;
                    rows := map (pad_row (width data)) data |}
      else Py.Raise Py.ValueError
  end.

(** *** How [read_csv] types a column

    The source calls [read_csv] without [dtype], [converters] or
    [parse_dates], so pandas infers each column's dtype from its fields:
    int64 (then uint64) when no field is missing and all are integer
    literals, float64 when every field is missing or a number, bool for
    true/false words, object otherwise; a column without rows is object.
    No dtype of a date or time is ever inferred.  Fields are taken as they
    stand (sign, digits, decimal point, exponent). *)

Definition na_values : list string :=
  [""; "#N/A"; "#N/A N/A"; "#NA"; "-1.#IND"; "-1.#QNAN"; "-NaN"; "-nan";
   "1.#IND"; "1.#QNAN"; "<NA>"; "N/A"; "NA"; "NULL"; "NaN"; "None"; "n/a";
   "nan"; "null"].

Definition is_na_field (s : string) : bool := Str.mem s na_values.

Definition is_sign (c : ascii) : bool := Ascii.eqb c "+" || Ascii.eqb c "-".

Definition drop_sign (l : list ascii) : list ascii :=
  match l with
  | c :: r => if is_sign c then r else l
  | [] => []
  end.

Definition digits_value (l : list ascii) : Z :=
  fold_left (fun acc c => (10 * acc + Z.of_N (N_of_ascii c - 48))%Z) l 0%Z.

Definition nonempty {A : Type} (l : list A) : bool :=
  match l with [] => false | _ => true end.

(** An optional sign and one or more digits. *)
Definition int_literal (s : string) : option Z :=
  let l := Str.chars s in
  let ds := drop_sign l in
  if nonempty ds && forallb Str.is_digit ds
  then Some (match l with
             | "-"%char :: _ => (- digits_value ds)%Z
             | _ => digits_value ds
             end)
  else None.

Fixpoint span_digits (l : list ascii) : list ascii * list ascii :=
  match l with
  | c :: r =>
      if Str.is_digit c
      then let '(ds, rest) := span_digits r in (c :: ds, rest)
      else ([], l)
  | [] => ([], [])
  end.

Definition exponent_ok (l : list ascii) : bool :=
  match l with
  | [] => true
  | c :: r =>
      (Ascii.eqb c "e" || Ascii.eqb c "E")
      && nonempty (drop_sign r) && forallb Str.is_digit (drop_sign r)
  end.

(** An optional sign; digits with an optional decimal point and further
    digits, or a decimal point and digits; an optional exponent. *)
Definition float_literal (s : string) : bool :=
  let '(ip, r1) := span_digits (drop_sign (Str.chars s)) in
  let '(fp, r2) :=
    match r1 with
    | "."%char :: r => span_digits r
    | _ => ([], r1)
    end in
  (nonempty ip || nonempty fp) && exponent_ok r2.

Definition bool_literal (s : string) : option bool :=
  if Str.mem s ["True"; "TRUE"; "true"] then Some true
  else if Str.mem s ["False"; "FALSE"; "false"] then Some false
  else None.

Definition all_some {A B : Type} (f : A -> option B) (l : list A) : option (list B) :=
  fold_right (fun a acc =>
                match f a, acc with
                | Some b, Some bs => Some (b :: bs)
                | _, _ => None
                end) (Some []) l.

Definition in_range (lo hi : Z) (z : Z) : bool := ((lo <=? z) && (z <? hi))%Z.

Definition missing_or (f : string -> scalar) (s : string) : scalar :=
  if is_na_field s then NaN else f s.

(** The Series that [read_csv] builds from the raw fields of one column. *)
Definition read_csv_column (fields : list string) : Series :=
  let strings := {| dtype_of := object_; values := map (missing_or Str) fields |} in
  match fields with
  | [] => strings
  | _ =>
      if forallb is_na_field fields
      then {| dtype_of := float64; values := map (fun _ => NaN) fields |}
      else
        match all_some int_literal fields with
        | Some zs =>
            if forallb (in_range (- 2 ^ 63) (2 ^ 63)) zs
            then {| dtype_of := int64; values := map NpInt64 zs |}
            else if forallb (in_range 0 (2 ^ 64)) zs
            then {| dtype_of := uint64; values := map NpInt64 zs |}
            else strings
        | None =>
            if forallb (fun s => is_na_field s || float_literal s) fields
            then {| dtype_of := float64; values := map (missing_or Float) fields |}
            else
              match all_some bool_literal fields with
              | Some bs => {| dtype_of := bool_; values := map NpBool bs |}
              | None => strings
              end
        end
  end.

End Pandas.

(** ** sqlite3: one connection to one database file

    The database is the finite map of its tables.  A connection sees its own
    uncommitted writes ([working]); [committed] is what the file holds.  As in
    Python's sqlite3 module, an INSERT opens a transaction when none is open,
    other statements run inside the open transaction or, when there is none,
    take effect at once, and nothing is rolled back when a statement fails.
    Table and column names are matched without regard to (ASCII) case.  An
    identifier is what stands between two double quotes; text with a further
    double quote inside is rejected as a syntax error.  Type affinity is not
    applied to stored values. *)

Module Sqlite.

Inductive value : Type :=
| Null
| Integer (z : Z)
| Real (literal : string)
| Text (s : string).

(** The columns in order (name, declared type) and the stored rows. *)
Record table : Type :=
  { schema : list (string * string); records : list (list value) }.

(** The SQL texts that the processor builds, by shape.  Names are passed
    as the processor writes them, in double quotes. *)
Inductive statement : Type :=
| DropTableIfExists (table_name : string)
| CreateTableIfNotExists (table_name : string) (column_defs : list (string * string))
| PragmaTableInfo (table_name : string)
| InsertInto (table_name : string) (column_names : list string).

Inductive event : Type :=
| Connected
| Executed (st : statement)
| ExecutedMany (st : statement) (data : list (list Pandas.value))
| Committed
| Closed.

Record connection : Type :=
  { working : gmap string table;
    committed : gmap string table;
    in_transaction : bool;
    closed : bool;
    history : list event }.


Definition is_dquote (c : ascii) : bool := Ascii.eqb c Str.dquote.

Definition identifier (quoted : string) : option string :=
  match Str.chars quoted with
  | c :: r =>
      match rev r with
      | c' :: body =>
          if is_dquote c && is_dquote c' && negb (existsb is_dquote body)
          then Some (Str.of_chars (rev body))
          else None
      | [] => None
      end
  | [] => None
  end.

Definition same_name (a b : string) : bool :=
  String.eqb (Str.lower a) (Str.lower b).

Definition table_key (quoted : string) : option string :=
  Str.lower <$> identifier quoted.

Definition column_schema (defs : list (string * string)) : option (list (string * string)) :=
  Pandas.all_some (fun d => (fun n => (n, snd d)) <$> identifier (fst d)) defs.

Fixpoint distinct_names (names : list string) : bool :=
  match names with
  | [] => true
  | n :: r => negb (existsb (same_name n) r) && distinct_names r
  end.

Definition log (e : event) (c : connection) : connection :=
  {| working := working c; committed := committed c;
     in_transaction := in_transaction c; closed := closed c;
     history := history c ++ [e] |}.

(** A write by a statement other than INSERT. *)
Definition write (f : gmap string table -> gmap string table) (c : connection) : connection :=
  {| working := f (working c);
     committed := if in_transaction c then committed c else f (working c);
     in_transaction := in_transaction c; closed := closed c;
     history := history c |}.

(** [cursor.execute(st)]; the result lists, for PRAGMA table_info, the
    names in the rows fetched ([col[1]]). *)
Definition execute (st : statement) (c : connection) : Py.result (list string) * connection :=
  if closed c then (Py.Raise Py.ProgrammingError, c) else
  let c := log (Executed st) c in
  match st with
  | DropTableIfExists q =>
      match table_key q with
      | Some k => (Py.Ok [], write (delete k) c)
      | None => (Py.Raise Py.OperationalError, c)
      end
  | CreateTableIfNotExists q defs =>
      match table_key q, column_schema defs with
      | Some k, Some (col :: cols) =>
          match working c !! k with
          | Some _ => (Py.Ok [], c)
          | None =>
              if distinct_names (map fst (col :: cols))
              then (Py.Ok [], write (insert k {| schema := col :: cols; records := [] |}) c)
              else (Py.Raise Py.OperationalError, c)   (* duplicate column name *)
          end
      | _, _ => (Py.Raise Py.OperationalError, c)      (* syntax error *)
      end
  | PragmaTableInfo q =>
      match table_key q with
      | Some k =>
          (Py.Ok (match working c !! k with
                  | Some t => map fst (schema t)
                  | None => []
                  end), c)
      | None => (Py.Raise Py.OperationalError, c)
      end
  | InsertInto _ _ => (Py.Raise Py.ProgrammingError, c)  (* no bindings supplied *)
  end.

(** How a Python object is bound to a [?]. *)
Definition bind_parameter (v : Pandas.value) : Py.result value :=
  match v with
  | Pandas.Cell Pandas.NoneV => Py.Ok Null
  | Pandas.Cell Pandas.NaN => Py.Ok Null
  | Pandas.Cell (Pandas.Int z) =>
      if Pandas.in_range (- 2 ^ 63) (2 ^ 63) z then Py.Ok (Integer z)
      else Py.Raise Py.OverflowError
  | Pandas.Cell (Pandas.Float l) => Py.Ok (Real l)
  | Pandas.Cell (Pandas.Str s) => Py.Ok (Text s)
  | Pandas.Cell (Pandas.Bool b) => Py.Ok (Integer (if b then 1 else 0))
  | Pandas.Cell (Pandas.NpInt64 _) => Py.Raise Py.InterfaceError
  | Pandas.Cell (Pandas.NpBool _) => Py.Raise Py.InterfaceError
  | Pandas.SeriesOf _ => Py.Raise Py.InterfaceError
  end.

Fixpoint bind_all (params : list Pandas.value) : Py.result (list value) :=
  match params with
  | [] => Py.Ok []
  | v :: r =>
      match bind_parameter v with
      | Py.Raise e => Py.Raise e
      | Py.Ok x =>
          match bind_all r with
          | Py.Raise e => Py.Raise e
          | Py.Ok xs => Py.Ok (x :: xs)
          end
      end
  end.

(** The stored row, in the table's column order. *)
Definition stored_record (table_columns insert_columns : list string) (vals : list value)
    : list value :=
  map (fun tc =>
         match find (fun cv => same_name (fst cv) tc) (combine insert_columns vals) with
         | Some cv => snd cv
         | None => Null
         end) table_columns.

Definition append_record (k : string) (r : list value) (c : connection) : connection :=
  {| working := alter (fun t => {| schema := schema t; records := records t ++ [r] |}) k (working c);
     committed := committed c;
     in_transaction := in_transaction c; closed := closed c;
     history := history c |}.

Fixpoint insert_rows (k : string) (table_columns insert_columns : list string)
    (data : list (list Pandas.value)) (c : connection) : Py.result unit * connection :=
  match data with
  | [] => (Py.Ok tt, c)
  | params :: rest =>
      if negb (Nat.eqb (List.length params) (List.length insert_columns))
      then (Py.Raise Py.ProgrammingError, c)
      else
        match bind_all params with
        | Py.Raise e => (Py.Raise e, c)
        | Py.Ok vals =>
            insert_rows k table_columns insert_columns rest
              (append_record k (stored_record table_columns insert_columns vals) c)
        end
  end.

Definition begin (c : connection) : connection :=
  {| working := working c; committed := committed c;
     in_transaction := true; closed := closed c;
     history := history c |}.

(** [cursor.executemany(st, data)] *)
Definition executemany (st : statement) (data : list (list Pandas.value)) (c : connection)
    : Py.result unit * connection :=
  if closed c then (Py.Raise Py.ProgrammingError, c) else
  let c := log (ExecutedMany st data) c in
  match st with
  | InsertInto q cols =>
      match table_key q, Pandas.all_some identifier cols with
      | Some k, Some (n :: names) =>
          match working c !! k with
          | Some t =>
              if forallb (fun n => existsb (same_name n) (map fst (schema t))) (n :: names)
              then insert_rows k (map fst (schema t)) (n :: names) data (begin c)
              else (Py.Raise Py.OperationalError, c)   (* no such column *)
          | None => (Py.Raise Py.OperationalError, c)  (* no such table *)
          end
      | _, _ => (Py.Raise Py.OperationalError, c)      (* syntax error *)
      end
  | _ => (Py.Raise Py.ProgrammingError, c)
  end.

(** [connection.commit()] *)
Definition commit (c : connection) : Py.result unit * connection :=
  if closed c then (Py.Raise Py.ProgrammingError, c) else
  (Py.Ok tt,
   {| working := working c; committed := working c;
      in_transaction := false; closed := false;
      history := history c ++ [Committed] |}).


(** [sqlite3.connect(path)] on a file that holds [db]. *)
Definition connect (db : gmap string table) : connection :=
  {| working := db; committed := db;
     in_transaction := false; closed := false;
     history := [Connected] |}.

End Sqlite.

(** ** The source files

    What the file system and pandas answer for one [*.csv] file: its name and
    stem, the outcome of [pd.read_csv(csv_file, on_bad_lines='warn', ...)] for
    each choice of delimiter, quote character and encoding, and the outcome of
    reading its lines as UTF-8 text. *)

Module Csv.

Inductive encoding : Type := utf_8 | latin1.

Record options : Type :=
  { delimiter : ascii; quotechar : ascii; encoding_of : encoding }.

(** pandas' defaults are the comma as delimiter and the double quote as
    quote character, so asking for that quote character changes nothing. *)
Definition default (e : encoding) : options :=
  {| delimiter := ","; quotechar := Str.dquote; encoding_of := e |}.
Definition semicolon (e : encoding) : options :=
  {| delimiter := ";"; quotechar := Str.dquote; encoding_of := e |}.
Definition quoting (e : encoding) : options :=
  {| delimiter := ","; quotechar := Str.dquote; encoding_of := e |}.

Record SourceFile : Type :=
  { name : string;
    stem : string;
    read_csv : options -> Py.result Pandas.DataFrame;
    readlines : Py.result (list string) }.

(** The lookahead of the fallback's pattern.  Its first alternative reads
    three double quotes, with neither quote character before each of them
    and no double quote after the third; its second alternative reads no
    double quote up to the end.  [n] counts the double quotes still
    expected. *)
Fixpoint lookahead (n : nat) (rest : list ascii) : bool :=
  match rest with
  | [] => Nat.eqb n 0
  | c :: r =>
      match n with
      | 0 => negb (Ascii.eqb c Str.dquote) && lookahead 0 r
      | S m =>
          if Ascii.eqb c Str.dquote then lookahead m r
          else negb (Ascii.eqb c "'") && lookahead n r
      end
  end.

Definition splits_here (rest : list ascii) : bool :=
  lookahead 3 rest || lookahead 0 rest.

(** [re.split(pattern, line)]: the line is cut at every comma whose
    lookahead holds.  [cur] is the piece being read, reversed. *)
Fixpoint split_chars (cur : list ascii) (l : list ascii) : list string :=
  match l with
  | [] => [Str.of_chars (rev cur)]
  | c :: r =>
      if Ascii.eqb c "," && splits_here r
      then Str.of_chars (rev cur) :: split_chars [] r
      else split_chars (c :: cur) r
  end.

Definition re_split (line : string) : list string := split_chars [] (Str.chars line).

Definition is_blank (s : string) : bool :=
  match s with EmptyString => true | _ => false end.

(** The manual method: blank lines go, every line is split, the first line
    gives the labels. *)
Definition manual_parse (f : SourceFile) : Py.result Pandas.DataFrame :=
  match readlines f with
  | Py.Raise e => Py.Raise e
  | Py.Ok lines =>
      let lines :=
        map (Str.strip Str.is_space)
            (List.filter (fun line => negb (is_blank (Str.strip Str.is_space line))) lines) in
      let data := map re_split lines in
      match data with
      | [] => Py.Raise Py.IndexError          (* data[0] *)
      | header :: records => Pandas.DataFrame_of_records records header
      end
  end.

End Csv.

(** ** The processor: [LinkedInDataProcessor] *)

Module Processor.

(** The attributes that the methods read and write.  [_seen_columns] is set
    once in [__init__] and never used again. *)
Record processor : Type :=
  { connection : option Sqlite.connection;
    column_mapping : Py.dict string }.


(** Methods may raise and may change the processor. *)
Definition M (A : Type) : Type := processor -> Py.result A * processor.

Definition ret {A : Type} (a : A) : M A := fun p => (Py.Ok a, p).
Definition raise {A : Type} (e : Py.exn) : M A := fun p => (Py.Raise e, p).
Definition lift {A : Type} (r : Py.result A) : M A := fun p => (r, p).

Definition bind {A B : Type} (m : M A) (k : A -> M B) : M B :=
  fun p =>
    match m p with
    | (Py.Ok a, p') => k a p'
    | (Py.Raise e, p') => (Py.Raise e, p')
    end.

Declare Scope py_scope.
Delimit Scope py_scope with py.
Notation "x <- m ;; k" := (bind m (fun x => k))
  (at level 100, m at next level, right associativity) : py_scope.
Notation "m ;;; k" := (bind m (fun _ => k))
  (at level 100, right associativity) : py_scope.
Local Open Scope py_scope.

(** [try: m  except <cls> as e: h e] *)
Definition try_except {A : Type} (m : M A) (cls : Py.exn -> bool) (h : Py.exn -> M A) : M A :=
  fun p =>
    match m p with
    | (Py.Ok a, p') => (Py.Ok a, p')
    | (Py.Raise e, p') => if cls e then h e p' else (Py.Raise e, p')
    end.

(** [self.column_mapping = d] *)
Definition set_column_mapping (d : Py.dict string) : M unit :=
  fun p => (Py.Ok tt, {| connection := connection p; column_mapping := d |}).

(** [self.column_mapping[k] = v] *)
Definition assign_column_mapping (k v : string) : M unit :=
  fun p => (Py.Ok tt, {| connection := connection p;
                         column_mapping := Py.dict_set k v (column_mapping p) |}).

Definition get_column_mapping : M (Py.dict string) :=
  fun p => (Py.Ok (column_mapping p), p).

(** A call on [self.connection] (or on a cursor of it); on [None] the
    attribute lookup fails. *)
Definition on_connection {A : Type}
    (op : Sqlite.connection -> Py.result A * Sqlite.connection) : M A :=
  fun p =>
    match connection p with
    | None => (Py.Raise Py.AttributeError, p)
    | Some c =>
        let '(r, c') := op c in
        (r, {| connection := Some c'; column_mapping := column_mapping p |})
    end.

Definition _infer_data_type (series : Pandas.selection) : Py.result string :=
  match series with
  | Pandas.OneColumn s =>
      let dtype := Pandas.dtype_of s in
      if Pandas.is_integer_dtype dtype then Py.Ok "INTEGER"
      else if Pandas.is_float_dtype dtype then Py.Ok "REAL"
      else if Pandas.is_datetime64_any_dtype dtype then Py.Ok "TIMESTAMP"
      else Py.Ok "TEXT"
  | Pandas.ManyColumns _ => Py.Raise Py.AttributeError   (* a frame has no dtype *)
  end.

(** The names against which [_create_table] compares the quoted table
    name before printing debug output: each starts with a double quote and
    has none at its end. *)
Definition create_debug_tables : list string :=
  map (String Str.dquote)
    ["ads_clicked"; "coach_messages"; "education"; "email_addresses";
     "endorsement_given_info"; "endorsement_received_info"; "events";
     "hashtag_follows"; "learning"; "learning_coach_messages";
     "learning_role_play_messages"; "logins"; "messages"].

(** The body of [for col in df.columns] in [_create_table]; [columns] is
    the list being appended to. *)
Fixpoint create_table_columns (df : Pandas.DataFrame) (cols : list string)
    (columns : list (string * string)) : M (list (string * string)) :=
  match cols with
  | [] => ret columns
  | col :: rest =>
      let normalized_col := _normalize_column_name col in
      assign_column_mapping col normalized_col ;;;
      series <- lift (Pandas.getitem df col) ;;
      dtype <- lift (_infer_data_type series) ;;
      (* Always quote column names to avoid SQL syntax errors *)
      let normalized_col := Str.quote normalized_col in
      create_table_columns df rest (columns ++ [(normalized_col, dtype)])
  end.

Definition _create_table (df : Pandas.DataFrame) (table_name : string) : M unit :=
  (* Replace spaces with underscores in table name and quote it *)
  let table_name := Str.quote (Str.replace_char " " "_" table_name) in
  (* Create mapping of original to normalized column names *)
  set_column_mapping [] ;;;
  columns <- create_table_columns df (Pandas.columns df) [] ;;
  (* Print debug info for problematic tables *)
  (if Str.mem table_name create_debug_tables
   then (_ <- on_connection (Sqlite.execute (Sqlite.PragmaTableInfo table_name)) ;; ret tt)
   else ret tt) ;;;
  let create_query := Sqlite.CreateTableIfNotExists table_name columns in
  try_except
    (_ <- on_connection (Sqlite.execute (Sqlite.DropTableIfExists table_name)) ;;
     _ <- on_connection (Sqlite.execute create_query) ;;
     on_connection Sqlite.commit)
    Py.is_sqlite3_Error
    (fun e => raise e).

(** One tuple of [data]: for each database column, the row's cell under
    the first original name mapped to it, or under the column's own name. *)
Definition row_data (labels : list string) (mapping : Py.dict string)
    (db_column_names : list string) (row : list Pandas.scalar) : list Pandas.value :=
  map (fun col =>
         (* Get the original column name from our mapping *)
         let orig_col := Py.first_key_of col mapping col in
         Pandas.row_get labels row orig_col)
      db_column_names.

Definition _insert_data (df : Pandas.DataFrame) (table_name : string) : M unit :=
  (* Replace spaces with underscores in table name and quote it *)
  let table_name := Str.quote (Str.replace_char " " "_" table_name) in
  (* Get column names and values for the INSERT statement *)
  mapping <- get_column_mapping ;;
  let normalized_cols :=
    map (fun col =>
           match Py.dict_get col mapping with
           | Some n => n
           | None => _normalize_column_name col
           end) (Pandas.columns df) in
  (* Get column names from database to ensure they match *)
  db_column_names <- on_connection (Sqlite.execute (Sqlite.PragmaTableInfo table_name)) ;;
  (* Create insert query with quoted column names *)
  let insert_query := Sqlite.InsertInto table_name (map Str.quote db_column_names) in
  (* Convert DataFrame to list of tuples and insert data *)
  mapping <- get_column_mapping ;;
  let data := map (row_data (Pandas.columns df) mapping db_column_names) (Pandas.rows df) in
  try_except
    (on_connection (Sqlite.executemany insert_query data) ;;;
     on_connection Sqlite.commit)
    Py.is_sqlite3_Error
    (fun e => raise e).

(** *** [process_directory] *)

(** How the parsing part of the loop body ends: with a value for [df], or
    with the [continue] after the manual method has raised [e]. *)
Inductive parsed : Type :=
| Frame (df : option Pandas.DataFrame)
| Unreadable (e : Py.exn).

(** [try: df = r  except pd.errors.ParserError: otherwise] *)
Definition attempt (r : Py.result Pandas.DataFrame) (otherwise : Py.result parsed)
    : Py.result parsed :=
  Py.try_except
    (match r with
     | Py.Ok df => Py.Ok (Frame (Some df))
     | Py.Raise e => Py.Raise e
     end)
    Py.is_ParserError
    (fun _ => otherwise).

(** Read CSV file with multiple parsing attempts. *)
Definition parse_file (f : Csv.SourceFile) : Py.result parsed :=
  (* Try standard CSV parsing *)
  attempt (Csv.read_csv f (Csv.default Csv.utf_8))
  (* Try with different delimiter *)
  (attempt (Csv.read_csv f (Csv.semicolon Csv.utf_8))
  (* Try with different quote handling *)
  (attempt (Csv.read_csv f (Csv.quoting Csv.utf_8))
  (* Try with different encoding *)
  (attempt (Csv.read_csv f (Csv.default Csv.latin1))
  (* Try with different quote handling and encoding *)
  (attempt (Csv.read_csv f (Csv.quoting Csv.latin1))
  (attempt (Csv.read_csv f (Csv.semicolon Csv.latin1))
  (match Csv.manual_parse f with
   | Py.Ok df => Py.Ok (Frame (Some df))
   | Py.Raise e => if Py.is_Exception e then Py.Ok (Unreadable e) else Py.Raise e
   end)))))).

(** [df.dropna(subset=[df.columns[0]])] when there is a column. *)
Definition drop_missing_first (df : Pandas.DataFrame) : Pandas.DataFrame :=
  match Pandas.columns df with
  | first :: _ => Pandas.dropna [first] df
  | [] => df
  end.

(** The lines printed at the end of a file's turn. *)
Inductive report : Type :=
| SuccessfullyProcessed (name : string)
| ErrorReading (name : string) (e : Py.exn)
| ErrorProcessing (name : string) (e : Py.exn).

(** What the processor's connection sees of a table, what the store holds
    of it, and whether a transaction is open. *)
Definition visible_table (p : processor) (k : string) : option Sqlite.table :=
  match connection p with
  | Some c => Sqlite.working c !! k
  | None => None
  end.

Definition stored_table (p : processor) (k : string) : option Sqlite.table :=
  match connection p with
  | Some c => Sqlite.committed c !! k
  | None => None
  end.

Definition transaction_open (p : processor) : bool :=
  match connection p with
  | Some c => Sqlite.in_transaction c
  | None => false
  end.


(** The body of the [try] of the loop. *)
Definition process_file_body (f : Csv.SourceFile) : M report :=
  r <- lift (parse_file f) ;;
  match r with
  | Unreadable e => ret (ErrorReading (Csv.name f) e)
  | Frame df =>
      df <- match df with
            | None => raise Py.ValueError
            | Some df => ret df
            end ;;
      (* Drop any rows with missing values in the first column *)
      let df := drop_missing_first df in
      let table_name := Str.lower (Csv.stem f) in
      _create_table df table_name ;;;
      _insert_data df table_name ;;;
      ret (SuccessfullyProcessed (Csv.name f))
  end.

(** One turn of [for csv_file in csv_files], with its [except Exception]. *)
Definition process_file (f : Csv.SourceFile) : M report :=
  try_except (process_file_body f) Py.is_Exception
    (fun e => ret (ErrorProcessing (Csv.name f) e)).






(** [_insert_data] with the lines that build [normalized_cols] taken out. *)
Definition _insert_data_without_normalized_cols (df : Pandas.DataFrame) (table_name : string)
    : M unit :=
  let table_name := Str.quote (Str.replace_char " " "_" table_name) in
  db_column_names <- on_connection (Sqlite.execute (Sqlite.PragmaTableInfo table_name)) ;;
  let insert_query := Sqlite.InsertInto table_name (map Str.quote db_column_names) in
  mapping <- get_column_mapping ;;
  let data := map (row_data (Pandas.columns df) mapping db_column_names) (Pandas.rows df) in
  try_except
    (on_connection (Sqlite.executemany insert_query data) ;;;
     on_connection Sqlite.commit)
    Py.is_sqlite3_Error
    (fun e => raise e).

End Processor.

(** ** What one file's turn does, in closed form

    The report, the column mapping, the change of the database and the
    statements issued in the turn of one file are determined by the file
    alone; [Summary.of_file] computes them without a connection, and
    [Summary.run] applies them to one. *)

Module Summary.

Import Processor.

Inductive effect : Type :=
| NoWrite
| TableDropped (k : string)
| TableCreated (k : string) (schema : list (string * string))
    (records : list (list Sqlite.value)) (pending : bool).

Record outcome : Type :=
  { report_of : report;
    mapping_of : option (Py.dict string);   (* [None]: left as it was *)
    effect_of : effect;
    events_of : list Sqlite.event }.

Definition apply (e : effect) (events : list Sqlite.event) (c : Sqlite.connection)
    : Sqlite.connection :=
  match e with
  | NoWrite =>
      {| Sqlite.working := Sqlite.working c;
         Sqlite.committed := Sqlite.committed c;
         Sqlite.in_transaction := Sqlite.in_transaction c;
         Sqlite.closed := Sqlite.closed c;
         Sqlite.history := Sqlite.history c ++ events |}
  | TableDropped k =>
      {| Sqlite.working := delete k (Sqlite.working c);
         Sqlite.committed :=
           if Sqlite.in_transaction c then Sqlite.committed c
           else delete k (Sqlite.working c);
         Sqlite.in_transaction := Sqlite.in_transaction c;
         Sqlite.closed := Sqlite.closed c;
         Sqlite.history := Sqlite.history c ++ events |}
  | TableCreated k sch recs pending =>
      {| Sqlite.working :=
           <[k := {| Sqlite.schema := sch; Sqlite.records := recs |}]> (Sqlite.working c);
         Sqlite.committed :=
           <[k := {| Sqlite.schema := sch;
                     Sqlite.records := if pending then [] else recs |}]> (Sqlite.working c);
         Sqlite.in_transaction := pending;
         Sqlite.closed := Sqlite.closed c;
         Sqlite.history := Sqlite.history c ++ events |}
  end.

Definition run (o : outcome) (p : processor) (c : Sqlite.connection)
    : Py.result report * processor :=
  (Py.Ok (report_of o),
   {| connection := Some (apply (effect_of o) (events_of o) c);
      column_mapping := match mapping_of o with
                        | Some m => m
                        | None => column_mapping p
                        end |}).

Definition column_type (df : Pandas.DataFrame) (col : string) : Py.result string :=
  match Pandas.getitem df col with
  | Py.Ok series => _infer_data_type series
  | Py.Raise e => Py.Raise e
  end.

(** Every one of [cols] selects one column of [df]. *)
Definition typed (df : Pandas.DataFrame) (cols : list string) : Prop :=
  forall col, In col cols -> exists dtype, column_type df col = Py.Ok dtype.

Fixpoint loop_columns (df : Pandas.DataFrame) (cols : list string)
    (acc : list (string * string)) : Py.result (list (string * string)) :=
  match cols with
  | [] => Py.Ok acc
  | col :: rest =>
      match column_type df col with
      | Py.Ok dtype =>
          loop_columns df rest (acc ++ [(Str.quote (_normalize_column_name col), dtype)])
      | Py.Raise e => Py.Raise e
      end
  end.

Fixpoint loop_mapping (df : Pandas.DataFrame) (cols : list string) (m : Py.dict string)
    : Py.dict string :=
  match cols with
  | [] => m
  | col :: rest =>
      let m' := Py.dict_set col (_normalize_column_name col) m in
      match column_type df col with
      | Py.Ok _ => loop_mapping df rest m'
      | Py.Raise _ => m'
      end
  end.

(** The rows stored before [executemany] ends, and how it ends. *)
Fixpoint bound_rows (table_columns insert_columns : list string)
    (data : list (list Pandas.value)) : Py.result unit * list (list Sqlite.value) :=
  match data with
  | [] => (Py.Ok tt, [])
  | params :: rest =>
      if negb (Nat.eqb (List.length params) (List.length insert_columns))
      then (Py.Raise Py.ProgrammingError, [])
      else
        match Sqlite.bind_all params with
        | Py.Raise e => (Py.Raise e, [])
        | Py.Ok vals =>
            let '(r, recs) := bound_rows table_columns insert_columns rest in
            (r, Sqlite.stored_record table_columns insert_columns vals :: recs)
        end
  end.

Definition unchanged (r : report) : outcome :=
  {| report_of := r; mapping_of := None; effect_of := NoWrite; events_of := [] |}.

Definition of_frame (name stem : string) (df0 : Pandas.DataFrame) : outcome :=
  let df := drop_missing_first df0 in
  let q := Str.quote (Str.replace_char " " "_" (Str.lower stem)) in
  let m := loop_mapping df (Pandas.columns df) [] in
  let failed e eff evs :=
    {| report_of := ErrorProcessing name e; mapping_of := Some m;
       effect_of := eff; events_of := evs |} in
  match loop_columns df (Pandas.columns df) [] with
  | Py.Raise e => failed e NoWrite []
  | Py.Ok columns =>
      let dropped := Sqlite.Executed (Sqlite.DropTableIfExists q) in
      let created := Sqlite.Executed (Sqlite.CreateTableIfNotExists q columns) in
      match Sqlite.table_key q with
      | None => failed Py.OperationalError NoWrite [dropped]
      | Some k =>
          match Sqlite.column_schema columns with
          | Some (col :: cols) =>
              let sch := col :: cols in
              let names := map fst sch in
              if Sqlite.distinct_names names then
                let statement := Sqlite.InsertInto q (map Str.quote names) in
                let data := map (row_data (Pandas.columns df) m names) (Pandas.rows df) in
                let issued :=
                  [dropped; created; Sqlite.Committed;
                   Sqlite.Executed (Sqlite.PragmaTableInfo q);
                   Sqlite.ExecutedMany statement data] in
                match Pandas.all_some Sqlite.identifier (map Str.quote names) with
                | Some (n :: ns) =>
                    if forallb (fun n => existsb (Sqlite.same_name n) names) (n :: ns)
                    then
                      match bound_rows names (n :: ns) data with
                      | (Py.Ok _, recs) =>
                          {| report_of := SuccessfullyProcessed name;
                             mapping_of := Some m;
                             effect_of := TableCreated k sch recs false;
                             events_of := issued ++ [Sqlite.Committed] |}
                      | (Py.Raise e, recs) => failed e (TableCreated k sch recs true) issued
                      end
                    else failed Py.OperationalError (TableCreated k sch [] false) issued
                | _ => failed Py.OperationalError (TableCreated k sch [] false) issued
                end
              else failed Py.OperationalError (TableDropped k) [dropped; created]
          | _ => failed Py.OperationalError (TableDropped k) [dropped; created]
          end
      end
  end.

Definition of_file (f : Csv.SourceFile) : outcome :=
  match parse_file f with
  | Py.Raise e => unchanged (ErrorProcessing (Csv.name f) e)
  | Py.Ok (Unreadable e) => unchanged (ErrorReading (Csv.name f) e)
  | Py.Ok (Frame None) => unchanged (ErrorProcessing (Csv.name f) Py.ValueError)
  | Py.Ok (Frame (Some df)) => of_frame (Csv.name f) (Csv.stem f) df
  end.

(** The summaries of the files of a run, one after the other. *)
Fixpoint connection_after (files : list Csv.SourceFile) (c : Sqlite.connection)
    : Sqlite.connection :=
  match files with
  | [] => c
  | f :: rest =>
      connection_after rest (apply (effect_of (of_file f)) (events_of (of_file f)) c)
  end.



End Summary.

(** ** Sample inputs *)

Module Samples.

Import Processor.

Definition newline : string := String "010" "".


(** A processor whose connection was just opened on an empty database. *)
Definition fresh : processor :=
  {| connection := Some (Sqlite.connect ∅); column_mapping := [] |}.



(** A file in Latin-1: the bytes of its one data field, caf and 0xE9, are
    not UTF-8.  Reading it as UTF-8 raises UnicodeDecodeError whatever the
    delimiter; as Latin-1 it parses. *)
Definition latin1_frame : Pandas.DataFrame :=
  {| Pandas.columns_of := [("name", Pandas.object_)];
     Pandas.rows := [[Pandas.Str ("caf" +:+ String "233" "")]] |}.

Definition latin1_file : Csv.SourceFile :=
  {| Csv.name := "Kontakte.csv"; Csv.stem := "Kontakte";
     Csv.read_csv := fun o =>
       match Csv.encoding_of o with
       | Csv.utf_8 => Py.Raise Py.UnicodeDecodeError
       | Csv.latin1 => Py.Ok latin1_frame
       end;
     Csv.readlines := Py.Raise Py.UnicodeDecodeError |}.

(** A file whose last line opens a quoted field that is never closed:
    every [read_csv] attempt ends with ParserError (EOF inside string) and
    the manual method reads the lines. *)
Definition unterminated_file : Csv.SourceFile :=
  {| Csv.name := "Notes.csv"; Csv.stem := "Notes";
     Csv.read_csv := fun _ => Py.Raise Py.ParserError;
     Csv.readlines :=
       Py.Ok ["a,b" +:+ newline; ",x" +:+ newline;
              String Str.dquote "unterminated,1" +:+ newline] |}.

(** Two distinct headers with one normalised name. *)
Definition colliding_frame : Pandas.DataFrame :=
  {| Pandas.columns_of := [("Email!", Pandas.object_); ("Email#", Pandas.object_)];
     Pandas.rows := [[Pandas.Str "a@x.org"; Pandas.Str "b@x.org"]] |}.






End Samples.

(** ** Notions for the properties of loading *)

Module Loading.

Import Processor.

(** The characters of a normalised name. *)
Definition is_name_char (c : ascii) : bool :=
  Str.is_lower c || Str.is_digit c || Str.is_underscore c.

(** Whether [u] occurs twice in a row. *)
Fixpoint has_adjacent (u : ascii) (l : list ascii) : bool :=
  match l with
  | a :: (b :: _) as r => (Ascii.eqb a u && Ascii.eqb b u) || has_adjacent u r
  | _ => false
  end.

(** A non-empty run of characters that are not separators. *)
Definition word_of (p : ascii -> bool) (t : list ascii) : Prop :=
  t <> [] /\ Forall (fun c => p c = false) t.





(** The attempts of [parse_file] as a list: each is tried when all before it
    raised ParserError, and the manual method comes last. *)
Fixpoint first_decisive (f : Csv.SourceFile) (attempts : list Csv.options)
    : Py.result parsed :=
  match attempts with
  | [] =>
      match Csv.manual_parse f with
      | Py.Ok df => Py.Ok (Frame (Some df))
      | Py.Raise e => Py.Ok (Unreadable e)
      end
  | o :: rest =>
      match Csv.read_csv f o with
      | Py.Ok df => Py.Ok (Frame (Some df))
      | Py.Raise e => if Py.is_ParserError e then first_decisive f rest else Py.Raise e
      end
  end.

(** The four calls of [read_csv] that differ from one another. *)
Definition distinct_attempts : list Csv.options :=
  [Csv.default Csv.utf_8; Csv.semicolon Csv.utf_8;
   Csv.default Csv.latin1; Csv.semicolon Csv.latin1].




End Loading.

(** * Properties *)

(** ** Strings *)

Lemma chars_of_chars (l : list ascii) : Str.chars (Str.of_chars l) = l.
Proof. apply list_ascii_of_string_of_list_ascii. Qed.

Lemma of_chars_chars (s : string) : Str.of_chars (Str.chars s) = s.
Proof. apply string_of_list_ascii_of_string. Qed.

Section Strip.

Variable p : ascii -> bool.

Lemma lstrip_all (a : list ascii) :
  forallb p a = true -> Str.lstrip_chars p a = [].
Proof.
  induction a as [|c a IH]; simpl; [reflexivity|].
  intros H. apply andb_prop in H as [Hc Ha]. rewrite Hc. auto.
Qed.

Lemma lstrip_app (a b : list ascii) :
  Str.lstrip_chars p (a ++ b)
  = if forallb p a then Str.lstrip_chars p b else Str.lstrip_chars p a ++ b.
Proof.
  induction a as [|c a IH]; simpl; [reflexivity|].
  destruct (p c); simpl; [exact IH | reflexivity].
Qed.

Lemma forallb_rev (l : list ascii) : forallb p (rev l) = forallb p l.
Proof.
  induction l as [|c l IH]; simpl; [reflexivity|].
  rewrite forallb_app, IH. simpl. rewrite andb_true_r. apply andb_comm.
Qed.

Lemma rstrip_cons (c : ascii) (l : list ascii) :
  Str.rstrip_chars p (c :: l)
  = if forallb p l && p c then [] else c :: Str.rstrip_chars p l.
Proof.
  unfold Str.rstrip_chars. simpl rev. rewrite lstrip_app, forallb_rev.
  destruct (forallb p l) eqn:Hl; simpl.
  - rewrite (lstrip_all (rev l)) by (rewrite forallb_rev; exact Hl).
    destruct (p c); reflexivity.
  - rewrite rev_app_distr. reflexivity.
Qed.

Lemma lstrip_starts (l : list ascii) :
  Words.starts_with p (Str.lstrip_chars p l) = false.
Proof.
  induction l as [|c l IH]; simpl; [reflexivity|].
  destruct (p c) eqn:Hc; [exact IH | simpl; exact Hc].
Qed.

Lemma tokens_lstrip (l : list ascii) :
  Words.tokens p (Str.lstrip_chars p l) = Words.tokens p l.
Proof.
  induction l as [|c l IH]; [reflexivity|].
  simpl Str.lstrip_chars. destruct (p c) eqn:Hc.
  - rewrite IH. simpl. rewrite Hc. reflexivity.
  - reflexivity.
Qed.

Lemma tokens_nil (l : list ascii) :
  Words.tokens p l = [] <-> forallb p l = true.
Proof.
  induction l as [|c l IH]; simpl; [tauto|].
  destruct (p c) eqn:Hc; simpl; [exact IH|].
  split; [|discriminate].
  destruct l as [|d l']; [discriminate|].
  destruct (p d); [discriminate|].
  destruct (Words.tokens p (d :: l')); discriminate.
Qed.

Lemma tokens_not_sep (l : list ascii) :
  Forall (Forall (fun c => p c = false)) (Words.tokens p l).
Proof.
  induction l as [|c l IH]; simpl; [constructor|].
  destruct (p c) eqn:Hc; [exact IH|].
  destruct l as [|d l'].
  - repeat constructor. exact Hc.
  - destruct (p d) eqn:Hd.
    + constructor; [repeat constructor; exact Hc | exact IH].
    + destruct (Words.tokens p (d :: l')) as [|t ts] eqn:Ht.
      * repeat constructor. exact Hc.
      * inversion IH; subst. constructor; [constructor; assumption | assumption].
Qed.

End Strip.

Lemma join_cons_cons (u c : ascii) (t : list ascii) (ts : list (list ascii)) :
  Words.join u ((c :: t) :: ts) = c :: Words.join u (t :: ts).
Proof. destruct ts; reflexivity. Qed.

Lemma join_map (f : ascii -> ascii) (u : ascii) (ts : list (list ascii)) :
  map f (Words.join u ts) = Words.join (f u) (map (map f) ts).
Proof.
  induction ts as [|t ts IH]; [reflexivity|].
  destruct ts as [|t' ts']; [reflexivity|].
  change (Words.join u (t :: t' :: ts')) with (t ++ u :: Words.join u (t' :: ts')).
  rewrite map_app, map_cons, IH. reflexivity.
Qed.

(** Stripping both ends and squeezing the runs leaves the tokens, joined. *)
Lemma squeeze_rstrip (u : ascii) (sep : ascii -> bool) (l : list ascii) (b : bool) :
  (forall a, Ascii.eqb a u = sep a) ->
  Str.squeeze u b (Str.rstrip_chars sep l)
  = (if negb b && Words.starts_with sep l && negb (forallb sep l) then [u] else [])
    ++ Words.join u (Words.tokens sep l).
Proof.
  intros Hsep. revert b.
  induction l as [|c l IH]; intros b.
  - simpl. rewrite !andb_false_r. reflexivity.
  - rewrite rstrip_cons. destruct (sep c) eqn:Hc.
    + assert (c = u) as -> by (apply Ascii.eqb_eq; rewrite Hsep; exact Hc).
      rewrite andb_true_r. simpl. rewrite Hc. simpl.
      destruct (forallb sep l) eqn:Hl.
      * apply tokens_nil in Hl. rewrite Hl. simpl. rewrite andb_false_r. reflexivity.
      * simpl. rewrite Ascii.eqb_refl, (IH true). simpl. rewrite andb_true_r.
        destruct b; reflexivity.
    + rewrite andb_false_r. simpl Str.squeeze. rewrite Hsep, Hc.
      rewrite (IH false). simpl Words.starts_with.
      rewrite Hc, andb_false_r. simpl app at 2. simpl negb.
      destruct l as [|d l'].
      * simpl. rewrite Hc. reflexivity.
      * simpl Words.starts_with. simpl andb.
        change (Words.tokens sep (c :: d :: l')) with
          (if sep c then Words.tokens sep (d :: l')
           else if sep d then [c] :: Words.tokens sep (d :: l')
                else match Words.tokens sep (d :: l') with
                     | t :: ts => (c :: t) :: ts
                     | [] => [[c]]
                     end).
        rewrite Hc. destruct (sep d) eqn:Hd.
        -- assert (Hf : forallb sep (d :: l') = forallb sep l')
             by (simpl; rewrite Hd; reflexivity).
           destruct (forallb sep l') eqn:Hl.
           ++ apply tokens_nil in Hf. rewrite Hf. reflexivity.
           ++ destruct (Words.tokens sep (d :: l')) as [|t ts] eqn:Ht.
              ** apply tokens_nil in Ht. congruence.
              ** reflexivity.
        -- destruct (Words.tokens sep (d :: l')) as [|t ts] eqn:Ht.
           ++ apply tokens_nil in Ht. simpl in Ht. rewrite Hd in Ht. discriminate.
           ++ rewrite join_cons_cons. reflexivity.
Qed.

Lemma strip_squeeze (u : ascii) (sep : ascii -> bool) (l : list ascii) :
  (forall a, Ascii.eqb a u = sep a) ->
  Str.squeeze u false (Str.rstrip_chars sep (Str.lstrip_chars sep l))
  = Words.join u (Words.tokens sep l).
Proof.
  intros Hsep. rewrite (squeeze_rstrip u sep) by exact Hsep.
  rewrite lstrip_starts, tokens_lstrip. rewrite andb_false_r. reflexivity.
Qed.

Lemma tokens_map (f : ascii -> ascii) (sep1 sep2 : ascii -> bool) (l : list ascii) :
  (forall c, sep2 (f c) = sep1 c) ->
  Words.tokens sep2 (map f l) = map (map f) (Words.tokens sep1 l).
Proof.
  intros Hsep. induction l as [|c l IH]; [reflexivity|].
  simpl map at 1.
  destruct l as [|d l'].
  - simpl. rewrite Hsep. destruct (sep1 c); reflexivity.
  - change (Words.tokens sep1 (c :: d :: l')) with
      (if sep1 c then Words.tokens sep1 (d :: l')
       else if sep1 d then [c] :: Words.tokens sep1 (d :: l')
            else match Words.tokens sep1 (d :: l') with
                 | t :: ts => (c :: t) :: ts
                 | [] => [[c]]
                 end).
    simpl map at 1.
    change (Words.tokens sep2 (f c :: f d :: map f l')) with
      (if sep2 (f c) then Words.tokens sep2 (f d :: map f l')
       else if sep2 (f d) then [f c] :: Words.tokens sep2 (f d :: map f l')
            else match Words.tokens sep2 (f d :: map f l') with
                 | t :: ts => (f c :: t) :: ts
                 | [] => [[f c]]
                 end).
    change (map f (d :: l')) with (f d :: map f l') in IH. rewrite IH, !Hsep.
    destruct (sep1 c); [reflexivity|].
    destruct (sep1 d); [reflexivity|].
    destruct (Words.tokens sep1 (d :: l')); reflexivity.
Qed.

(** ** Characters, case by case *)

Ltac by_cases_on_char c :=
  destruct c as [[] [] [] [] [] [] [] []]; vm_compute; (reflexivity || discriminate || tauto).

Lemma sub_is_sep (c : ascii) :
  Str.is_underscore (if Str.is_word c then c else "_"%char) = negb (Words.is_alnum c).
Proof. by_cases_on_char c. Qed.

Lemma sub_alnum (c : ascii) :
  negb (Words.is_alnum c) = false -> (if Str.is_word c then c else "_"%char) = c.
Proof. by_cases_on_char c. Qed.

Lemma cleaned_eq (h : string) :
  Str.lower (Str.re_sub_runs "_" (Str.strip Str.is_underscore
               (Str.re_sub_not_in Str.is_word "_" h)))
  = Words.cleaned h.
Proof.
  unfold Str.lower, Str.re_sub_runs, Str.strip, Str.re_sub_not_in, Words.cleaned, Words.words.
  rewrite !chars_of_chars. f_equal.
  rewrite (strip_squeeze "_" Str.is_underscore) by reflexivity. rewrite join_map.
  change (Str.lower_char "_") with "_"%char. f_equal. f_equal.
  rewrite (tokens_map _ (fun c => negb (Words.is_alnum c))) by apply sub_is_sep.
  pose proof (tokens_not_sep (fun c => negb (Words.is_alnum c)) (Str.chars h)) as HF.
  induction HF as [|t ts Ht _ IH]; [reflexivity|].
  simpl. f_equal; [|exact IH].
  clear -Ht. induction Ht as [|c t Hc _ IH]; [reflexivity|].
  simpl. rewrite sub_alnum by exact Hc. f_equal. exact IH.
Qed.

Lemma normalize_remap (h : string) :
  _normalize_column_name h = Words.remap (Words.cleaned h).
Proof.
  unfold _normalize_column_name. rewrite cleaned_eq.
  unfold Words.remap, Str.mem. simpl existsb.
  destruct (String.eqb (Words.cleaned h) "date"); [reflexivity|].
  destruct (String.eqb (Words.cleaned h) "from") eqn:E1.
  { apply String.eqb_eq in E1. rewrite E1. reflexivity. }
  destruct (String.eqb (Words.cleaned h) "to") eqn:E2.
  { apply String.eqb_eq in E2. rewrite E2. reflexivity. }
  destruct (String.eqb (Words.cleaned h) "text") eqn:E3.
  { apply String.eqb_eq in E3. rewrite E3. reflexivity. }
  reflexivity.
Qed.

Lemma remap_changes (n : string) :
  Words.remap n <> n <-> In n ["date"; "from"; "to"; "text"].
Proof.
  unfold Words.remap. simpl In.
  destruct (String.eqb n "date") eqn:E0.
  { apply String.eqb_eq in E0. subst n. split; [auto | discriminate]. }
  destruct (String.eqb n "from") eqn:E1.
  { apply String.eqb_eq in E1. subst n. split; [auto | discriminate]. }
  destruct (String.eqb n "to") eqn:E2.
  { apply String.eqb_eq in E2. subst n. split; [auto | discriminate]. }
  destruct (String.eqb n "text") eqn:E3.
  { apply String.eqb_eq in E3. subst n. split; [auto | discriminate]. }
  apply String.eqb_neq in E0, E1, E2, E3.
  split; [congruence | intuition congruence].
Qed.

(** C8.  Column normalisation is a function of the header alone.  Replacing
    every character outside [A-Za-z0-9_] by an underscore, stripping the
    underscores at both ends, collapsing the runs of underscores and
    lowercasing yields the alphanumeric words of the header, in lower case,
    joined by single underscores; after that exactly date, from, to and text
    are remapped, to date_col, col_from, col_to and col_text.  So date gives
    date_col, login_date stays, From gives col_from, and equal headers give
    equal names. *)
Theorem normalize_column_name_spec (header : string) :
  let replaced := Str.re_sub_not_in Str.is_word "_" header in
  let stripped := Str.strip Str.is_underscore replaced in
  let collapsed := Str.re_sub_runs "_" stripped in
  let lowered := Str.lower collapsed in
  Str.chars replaced = map (fun c => if Str.is_word c then c else "_"%char) (Str.chars header)
  /\ lowered = Words.cleaned header
  /\ _normalize_column_name header = Words.remap lowered
  /\ (_normalize_column_name header <> lowered <-> In lowered ["date"; "from"; "to"; "text"])
  /\ map Words.remap ["date"; "from"; "to"; "text"] = ["date_col"; "col_from"; "col_to"; "col_text"]
  /\ _normalize_column_name "date" = "date_col"
  /\ _normalize_column_name "login_date" = "login_date"
  /\ _normalize_column_name "From" = "col_from"
  /\ (forall header', header' = header ->
        _normalize_column_name header' = _normalize_column_name header).
Proof.
  intros replaced stripped collapsed lowered.
  assert (Hl : lowered = Words.cleaned header) by apply cleaned_eq.
  assert (Hn : _normalize_column_name header = Words.remap lowered)
    by (rewrite Hl; apply normalize_remap).
  split; [apply chars_of_chars|].
  split; [exact Hl|].
  split; [exact Hn|].
  split; [rewrite Hn; apply remap_changes|].
  repeat split; try (vm_compute; reflexivity).
  intros header' ->. reflexivity.
Qed.

(** ** The type inferencer *)

(** C2, counterexample.  A column of date strings is of dtype object after
    [read_csv]; it is classified TEXT, not TIMESTAMP. *)
Lemma date_strings_classify_as_text :
  let column := Pandas.read_csv_column ["2020-01-01"; "2020-02-02"] in
  Pandas.dtype_of column = Pandas.object_
  /\ Processor._infer_data_type (Pandas.OneColumn column) = Py.Ok "TEXT"
  /\ Processor._infer_data_type (Pandas.OneColumn column) <> Py.Ok "TIMESTAMP".
Proof. vm_compute. repeat split; discriminate. Qed.

(** An all-missing column is of dtype float64 after [read_csv] and is
    classified REAL; so is an integer column with a missing field. *)
Example missing_fields_classify_as_real :
  Processor._infer_data_type (Pandas.OneColumn (Pandas.read_csv_column [""; ""])) = Py.Ok "REAL"
  /\ Processor._infer_data_type (Pandas.OneColumn (Pandas.read_csv_column ["1"; ""; "3"])) = Py.Ok "REAL".
Proof. vm_compute. split; reflexivity. Qed.

(** C2, as amended.  The classification reads the dtype of the column and
    nothing else, in priority order: an integer dtype gives INTEGER, else a
    float dtype REAL, else a datetime64 dtype TIMESTAMP, otherwise TEXT.  As
    [read_csv] types them, the column 1, 2, 3 is INTEGER, the column 1.0, 2
    is REAL and the column a, 1 is TEXT. *)
Theorem infer_data_type_by_dtype (series : Pandas.Series) :
  Processor._infer_data_type (Pandas.OneColumn series)
  = Py.Ok (if Pandas.is_integer_dtype (Pandas.dtype_of series) then "INTEGER"
           else if Pandas.is_float_dtype (Pandas.dtype_of series) then "REAL"
           else if Pandas.is_datetime64_any_dtype (Pandas.dtype_of series) then "TIMESTAMP"
           else "TEXT")
  /\ (forall other,
        Pandas.dtype_of other = Pandas.dtype_of series ->
        Processor._infer_data_type (Pandas.OneColumn other)
        = Processor._infer_data_type (Pandas.OneColumn series))
  /\ Processor._infer_data_type (Pandas.OneColumn (Pandas.read_csv_column ["1"; "2"; "3"]))
     = Py.Ok "INTEGER"
  /\ Processor._infer_data_type (Pandas.OneColumn (Pandas.read_csv_column ["1.0"; "2"]))
     = Py.Ok "REAL"
  /\ Processor._infer_data_type (Pandas.OneColumn (Pandas.read_csv_column ["a"; "1"]))
     = Py.Ok "TEXT".
Proof.
  split.
  { unfold Processor._infer_data_type.
    destruct (Pandas.is_integer_dtype _); [reflexivity|].
    destruct (Pandas.is_float_dtype _); [reflexivity|].
    destruct (Pandas.is_datetime64_any_dtype _); reflexivity. }
  split.
  { intros other H. unfold Processor._infer_data_type. rewrite H. reflexivity. }
  repeat split; vm_compute; reflexivity.
Qed.

(** ** The parse attempts *)

Lemma attempt_ok (df : Pandas.DataFrame) (otherwise : Py.result Processor.parsed) :
  Processor.attempt (Py.Ok df) otherwise = Py.Ok (Processor.Frame (Some df)).
Proof. reflexivity. Qed.

Lemma attempt_parser_error (otherwise : Py.result Processor.parsed) :
  Processor.attempt (Py.Raise Py.ParserError) otherwise = otherwise.
Proof. reflexivity. Qed.

Lemma attempt_other_error (e : Py.exn) (otherwise : Py.result Processor.parsed) :
  Py.is_ParserError e = false ->
  Processor.attempt (Py.Raise e) otherwise = Py.Raise e.
Proof. intros H. unfold Processor.attempt. simpl. rewrite H. reflexivity. Qed.

(** An exception of the first attempt that is not a ParserError ends the
    file's turn: no later attempt is made. *)
Lemma first_attempt_decides (f : Csv.SourceFile) (e : Py.exn) (p : Processor.processor) :
  Csv.read_csv f (Csv.default Csv.utf_8) = Py.Raise e ->
  Py.is_ParserError e = false ->
  Processor.parse_file f = Py.Raise e
  /\ Processor.process_file f p = (Py.Ok (Processor.ErrorProcessing (Csv.name f) e), p).
Proof.
  intros Hr He.
  assert (Hp : Processor.parse_file f = Py.Raise e).
  { unfold Processor.parse_file. rewrite Hr. apply attempt_other_error. exact He. }
  split; [exact Hp|].
  unfold Processor.process_file, Processor.try_except, Processor.process_file_body,
    Processor.bind, Processor.lift.
  rewrite Hp. reflexivity.
Qed.

(** C3, at the failing input.  The Latin-1 file parses with the default
    delimiter under Latin-1, yet its turn ends at the first attempt: the
    UnicodeDecodeError is not a ParserError, no other attempt is made, the
    file is reported as an error and the processor is left as it was. *)
Theorem latin1_file_is_skipped (p : Processor.processor) :
  Csv.read_csv Samples.latin1_file (Csv.default Csv.latin1) = Py.Ok Samples.latin1_frame
  /\ Csv.read_csv Samples.latin1_file (Csv.default Csv.utf_8) = Py.Raise Py.UnicodeDecodeError
  /\ Py.is_ParserError Py.UnicodeDecodeError = false
  /\ Processor.parse_file Samples.latin1_file = Py.Raise Py.UnicodeDecodeError
  /\ Processor.process_file Samples.latin1_file p
     = (Py.Ok (Processor.ErrorProcessing "Kontakte.csv" Py.UnicodeDecodeError), p).
Proof.
  repeat split; try reflexivity.
Qed.

(** ** The connection: what the operations leave alone *)

Lemma insert_rows_frame (k : string) (tc ic : list string)
    (data : list (list Pandas.value)) (c : Sqlite.connection) :
  let c' := snd (Sqlite.insert_rows k tc ic data c) in
  Sqlite.history c' = Sqlite.history c
  /\ Sqlite.closed c' = Sqlite.closed c
  /\ Sqlite.committed c' = Sqlite.committed c
  /\ Sqlite.in_transaction c' = Sqlite.in_transaction c.
Proof.
  revert c. induction data as [|params rest IH]; intros c; simpl; [tauto|].
  destruct (negb _); [simpl; tauto|].
  destruct (Sqlite.bind_all params); [|simpl; tauto].
  specialize (IH (Sqlite.append_record k (Sqlite.stored_record tc ic a) c)).
  simpl in IH. exact IH.
Qed.



(** ** The row loader *)






(** ** Dropping the rows without a first value *)

Lemma cells_at_absent (labels : list string) (row : list Pandas.scalar) (key : string) :
  ~ In key labels -> Pandas.cells_at labels row key = [].
Proof.
  intros Hn. unfold Pandas.cells_at, Pandas.items.
  revert row. induction labels as [|l labels IH]; intros row; [reflexivity|].
  destruct row as [|v row]; [reflexivity|]. simpl.
  destruct (String.eqb l key) eqn:E.
  - apply String.eqb_eq in E. exfalso. apply Hn. left. exact E.
  - apply IH. intros H. apply Hn. right. exact H.
Qed.

Lemma row_has_na_cells (labels : list string) (first : string) (row : list Pandas.scalar) :
  negb (Pandas.row_has_na labels [first] row)
  = forallb (fun v => negb (Pandas.isna v)) (Pandas.cells_at labels row first).
Proof.
  unfold Pandas.row_has_na, Pandas.cells_at.
  induction (Pandas.items labels row) as [|[l v] items IH]; [reflexivity|].
  simpl in IH |- *. rewrite orb_false_r.
  destruct (String.eqb l first); simpl.
  - rewrite negb_orb, IH. reflexivity.
  - exact IH.
Qed.





(** ** The unused list of [_insert_data] *)

(** C10.  Building [normalized_cols] has no effect and its value is not
    used: without those lines [_insert_data] returns the same result and
    leaves the same processor, for every frame, table name and processor.
    What is executed depends on the frame through its labels and rows only. *)
Theorem normalized_cols_is_dead (df : Pandas.DataFrame) (table_name : string)
    (p : Processor.processor) :
  Processor._insert_data df table_name p
  = Processor._insert_data_without_normalized_cols df table_name p
  /\ (forall df',
        Pandas.columns df' = Pandas.columns df /\ Pandas.rows df' = Pandas.rows df ->
        Processor._insert_data df' table_name p = Processor._insert_data df table_name p).
Proof.
  split; [reflexivity|].
  intros df' [Hc Hr].
  unfold Processor._insert_data. rewrite Hc, Hr. reflexivity.
Qed.

(** ** The method monad *)

Lemma try_except_reraise {A : Type} (m : Processor.M A) (cls : Py.exn -> bool)
    (p : Processor.processor) :
  Processor.try_except m cls (fun e => Processor.raise e) p = m p.
Proof.
  unfold Processor.try_except, Processor.raise.
  destruct (m p) as [[a|e] p']; [reflexivity|].
  destruct (cls e); reflexivity.
Qed.

(** ** The loop over the headers in [_create_table] *)

Lemma create_table_columns_run (df : Pandas.DataFrame) (cols : list string)
    (acc : list (string * string)) (p : Processor.processor) :
  Processor.create_table_columns df cols acc p
  = (Summary.loop_columns df cols acc,
     {| Processor.connection := Processor.connection p;
        Processor.column_mapping :=
          Summary.loop_mapping df cols (Processor.column_mapping p) |}).
Proof.
  revert acc p. induction cols as [|col rest IH]; intros acc p.
  - destruct p. reflexivity.
  - simpl. unfold Processor.bind, Processor.assign_column_mapping, Processor.lift,
      Summary.column_type.
    destruct (Pandas.getitem df col) as [series|e]; [|reflexivity].
    destruct (Processor._infer_data_type series) as [dtype|e]; [|reflexivity].
    rewrite IH. reflexivity.
Qed.

Lemma filter_unique_label {B : Type} (cds : list (string * B)) (col : string) :
  List.NoDup (map fst cds) -> In col (map fst cds) ->
  exists cd, List.filter (fun cd => String.eqb (fst cd) col) cds = [cd].
Proof.
  induction cds as [|[l d] cds IH]; intros Hnd Hin; [destruct Hin|].
  simpl in Hnd, Hin |- *. apply List.NoDup_cons_iff in Hnd as [Hl Hnd].
  destruct (String.eqb l col) eqn:E.
  - apply String.eqb_eq in E. subst l. exists (col, d). f_equal.
    clear -Hl. induction cds as [|[l' d'] cds IH]; [reflexivity|].
    simpl in Hl |- *. destruct (String.eqb l' col) eqn:E.
    + apply String.eqb_eq in E. tauto.
    + apply IH. tauto.
  - apply IH; [exact Hnd|]. destruct Hin as [H|H]; [|exact H].
    apply String.eqb_neq in E. congruence.
Qed.

Lemma column_type_ok (df : Pandas.DataFrame) (col : string) :
  List.NoDup (Pandas.columns df) -> In col (Pandas.columns df) ->
  exists dtype, Summary.column_type df col = Py.Ok dtype.
Proof.
  intros Hnd Hin. unfold Summary.column_type, Pandas.getitem.
  destruct (filter_unique_label (Pandas.columns_of df) col Hnd Hin) as [cd ->].
  unfold Processor._infer_data_type. cbn [Pandas.dtype_of].
  destruct (Pandas.is_integer_dtype _); [eexists; reflexivity|].
  destruct (Pandas.is_float_dtype _); [eexists; reflexivity|].
  destruct (Pandas.is_datetime64_any_dtype _); eexists; reflexivity.
Qed.

Lemma chars_append (a b : string) : Str.chars (a +:+ b) = Str.chars a ++ Str.chars b.
Proof. induction a as [|c a IH]; simpl; [reflexivity | f_equal; exact IH]. Qed.

Lemma quote_ends_with_dquote (x : string) :
  hd_error (rev (Str.chars (Str.quote x))) = Some Str.dquote.
Proof.
  unfold Str.quote. change (Str.chars (String Str.dquote ?s)) with (Str.dquote :: Str.chars s).
  rewrite chars_append. simpl. rewrite rev_app_distr. reflexivity.
Qed.

Lemma mem_quote_false (x : string) (names : list string) :
  Forall (fun n => hd_error (rev (Str.chars n)) <> Some Str.dquote) names ->
  Str.mem (Str.quote x) names = false.
Proof.
  induction 1 as [|n names Hn _ IH]; [reflexivity|].
  unfold Str.mem in *. cbn [existsb]. rewrite IH, orb_false_r.
  apply String.eqb_neq. intros E. apply Hn. rewrite <- E. apply quote_ends_with_dquote.
Qed.

(** The debug branch of [_create_table] is never taken: the names it looks
    for have no closing quote. *)
Lemma create_debug_branch_dead (x : string) :
  Str.mem (Str.quote x) Processor.create_debug_tables = false.
Proof.
  apply mem_quote_false. unfold Processor.create_debug_tables.
  repeat (constructor; [vm_compute; discriminate|]). constructor.
Qed.

Lemma connection_eta (c : Sqlite.connection) :
  {| Sqlite.working := Sqlite.working c; Sqlite.committed := Sqlite.committed c;
     Sqlite.in_transaction := Sqlite.in_transaction c; Sqlite.closed := Sqlite.closed c;
     Sqlite.history := Sqlite.history c |} = c.
Proof. destruct c. reflexivity. Qed.

(** Projections of records that are given by their fields. *)
Ltac project :=
  cbn [Processor.connection Processor.column_mapping
       Sqlite.working Sqlite.committed Sqlite.in_transaction Sqlite.closed Sqlite.history
       Sqlite.write Sqlite.log Sqlite.begin fst snd].

Ltac same_state :=
  unfold Summary.apply, Sqlite.write, Sqlite.log, Sqlite.begin; project;
  rewrite <- ?app_assoc; reflexivity.

(** [_create_table] on an open connection, in closed form. *)
Lemma create_table_run (df : Pandas.DataFrame) (table_name : string)
    (p : Processor.processor) (c : Sqlite.connection) :
  Processor.connection p = Some c ->
  Sqlite.closed c = false ->
  let q := Str.quote (Str.replace_char " " "_" table_name) in
  let m := Summary.loop_mapping df (Pandas.columns df) [] in
  let state eff evs :=
    {| Processor.connection := Some (Summary.apply eff evs c);
       Processor.column_mapping := m |} in
  let dropped := Sqlite.Executed (Sqlite.DropTableIfExists q) in
  Processor._create_table df table_name p
  = match Summary.loop_columns df (Pandas.columns df) [] with
    | Py.Raise e => (Py.Raise e, state Summary.NoWrite [])
    | Py.Ok columns =>
        let created := Sqlite.Executed (Sqlite.CreateTableIfNotExists q columns) in
        match Sqlite.table_key q with
        | None => (Py.Raise Py.OperationalError, state Summary.NoWrite [dropped])
        | Some k =>
            match Sqlite.column_schema columns with
            | Some (col :: cols) =>
                if Sqlite.distinct_names (map fst (col :: cols))
                then (Py.Ok tt,
                      state (Summary.TableCreated k (col :: cols) [] false)
                        [dropped; created; Sqlite.Committed])
                else (Py.Raise Py.OperationalError,
                      state (Summary.TableDropped k) [dropped; created])
            | _ => (Py.Raise Py.OperationalError,
                    state (Summary.TableDropped k) [dropped; created])
            end
        end
    end.
Proof.
  intros Hp Hc q m state dropped.
  unfold Processor._create_table. fold q.
  unfold Processor.bind at 1, Processor.set_column_mapping.
  unfold Processor.bind at 1. rewrite create_table_columns_run.
  cbn [Processor.connection Processor.column_mapping]. fold m. rewrite Hp.
  destruct (Summary.loop_columns df (Pandas.columns df) []) as [columns|e].
  2:{ unfold state. simpl. rewrite app_nil_r, connection_eta. reflexivity. }
  unfold q at 1. rewrite create_debug_branch_dead. fold q.
  unfold Processor.bind at 1, Processor.ret. rewrite try_except_reraise.
  unfold Processor.bind, Processor.on_connection.
  cbn [Processor.connection Processor.column_mapping].
  unfold Sqlite.execute at 1. rewrite Hc. cbv zeta.
  destruct (Sqlite.table_key q) as [k|] eqn:Hk; [|reflexivity].
  project. unfold Sqlite.execute. project. rewrite Hc. cbv zeta. rewrite Hk.
  destruct (Sqlite.column_schema columns) as [[|col cols]|]; try (unfold state; same_state).
  project. rewrite lookup_delete_eq.
  destruct (Sqlite.distinct_names _); [|unfold state; same_state].
  project. unfold Sqlite.commit. project. rewrite Hc.
  unfold state, Summary.apply, Sqlite.write, Sqlite.log. project.
  rewrite insert_delete_eq, <- !app_assoc, Hc. reflexivity.
Qed.







(** ** The column mapping built by [_create_table] *)

Lemma dict_set_fresh {V : Type} (k : string) (v : V) (d : Py.dict V) :
  ~ In k (map fst d) -> Py.dict_set k v d = d ++ [(k, v)].
Proof.
  induction d as [|[k' v'] d IH]; intros Hn; [reflexivity|].
  simpl in Hn |- *. destruct (String.eqb k' k) eqn:E.
  - apply String.eqb_eq in E. tauto.
  - rewrite IH by tauto. reflexivity.
Qed.

Lemma dict_get_map (f : string -> string) (h : string) (cols : list string) :
  In h cols -> Py.dict_get h (map (fun x => (x, f x)) cols) = Some (f h).
Proof.
  induction cols as [|x cols IH]; intros Hin; [destruct Hin|].
  simpl. destruct (String.eqb x h) eqn:E.
  - apply String.eqb_eq in E. subst x. reflexivity.
  - apply IH. destruct Hin as [H|H]; [|exact H].
    apply String.eqb_neq in E. congruence.
Qed.

Section Loop.

Variable df : Pandas.DataFrame.

Lemma loop_mapping_fresh (cols : list string) (m : Py.dict string) :
  Summary.typed df cols ->
  List.NoDup (map fst m ++ cols) ->
  Summary.loop_mapping df cols m
  = m ++ map (fun h => (h, _normalize_column_name h)) cols.
Proof.
  revert m. induction cols as [|col rest IH]; intros m Ht Hnd.
  - simpl. rewrite app_nil_r. reflexivity.
  - simpl. destruct (Ht col) as [dtype ->]; [left; reflexivity|].
    rewrite dict_set_fresh.
    + rewrite IH.
      * rewrite <- app_assoc. reflexivity.
      * intros c Hc. apply Ht. right. exact Hc.
      * rewrite map_app, <- app_assoc. exact Hnd.
    + apply List.NoDup_remove_2 in Hnd. intros H. apply Hnd.
      apply in_or_app. left. exact H.
Qed.

Lemma loop_columns_typed (cols : list string) (acc : list (string * string)) :
  Summary.typed df cols ->
  exists types,
    List.length types = List.length cols
    /\ Summary.loop_columns df cols acc
       = Py.Ok (acc ++ combine (map (fun h => Str.quote (_normalize_column_name h)) cols) types).
Proof.
  revert acc. induction cols as [|col rest IH]; intros acc Ht.
  - exists []. simpl. rewrite app_nil_r. split; reflexivity.
  - simpl. destruct (Ht col) as [dtype ->]; [left; reflexivity|].
    destruct (IH (acc ++ [(Str.quote (_normalize_column_name col), dtype)])) as (types & Hl & ->).
    { intros c Hc. apply Ht. right. exact Hc. }
    exists (dtype :: types). simpl. rewrite Hl, <- app_assoc. split; reflexivity.
Qed.

End Loop.

(** ** Normalised names as SQL identifiers *)

Lemma alnum_lower_not_dquote (c : ascii) :
  negb (Words.is_alnum c) = false -> Sqlite.is_dquote (Str.lower_char c) = false.
Proof. by_cases_on_char c. Qed.

Lemma existsb_join (P : ascii -> bool) (u : ascii) (ts : list (list ascii)) :
  P u = false -> Forall (fun t => existsb P t = false) ts ->
  existsb P (Words.join u ts) = false.
Proof.
  intros Hu. induction 1 as [|t ts Ht _ IH]; [reflexivity|].
  destruct ts as [|t' ts']; [exact Ht|].
  change (Words.join u (t :: t' :: ts')) with (t ++ u :: Words.join u (t' :: ts')).
  rewrite existsb_app. cbn [existsb]. rewrite Ht, Hu, IH. reflexivity.
Qed.

Lemma cleaned_no_dquote (h : string) :
  existsb Sqlite.is_dquote (Str.chars (Words.cleaned h)) = false.
Proof.
  unfold Words.cleaned, Words.words. rewrite chars_of_chars.
  apply existsb_join; [reflexivity|].
  pose proof (tokens_not_sep (fun c => negb (Words.is_alnum c)) (Str.chars h)) as HF.
  induction HF as [|t ts Ht _ IH]; [constructor|].
  simpl. constructor; [|exact IH].
  clear -Ht. induction Ht as [|c t Hc _ IH]; [reflexivity|].
  simpl. rewrite (alnum_lower_not_dquote c Hc). exact IH.
Qed.

Lemma normalize_no_dquote (h : string) :
  existsb Sqlite.is_dquote (Str.chars (_normalize_column_name h)) = false.
Proof.
  rewrite normalize_remap. unfold Words.remap.
  repeat (match goal with |- context [if ?b then _ else _] => destruct b end;
          [reflexivity|]).
  apply cleaned_no_dquote.
Qed.

Lemma existsb_rev (P : ascii -> bool) (l : list ascii) : existsb P (rev l) = existsb P l.
Proof.
  induction l as [|c l IH]; [reflexivity|].
  simpl. rewrite existsb_app, IH. simpl. rewrite orb_false_r. apply orb_comm.
Qed.

Lemma identifier_quote (n : string) :
  existsb Sqlite.is_dquote (Str.chars n) = false ->
  Sqlite.identifier (Str.quote n) = Some n.
Proof.
  intros Hn. unfold Sqlite.identifier, Str.quote.
  change (Str.chars (String Str.dquote ?s)) with (Str.dquote :: Str.chars s).
  rewrite chars_append. simpl Str.chars at 2. rewrite rev_app_distr. simpl rev at 1.
  simpl app. change (Sqlite.is_dquote Str.dquote) with true.
  cbv iota beta. change (Sqlite.is_dquote Str.dquote) with true.
  rewrite existsb_rev, Hn, rev_involutive, of_chars_chars. reflexivity.
Qed.

Lemma column_schema_quoted (names : list string) (types : list string) :
  Forall (fun n => existsb Sqlite.is_dquote (Str.chars n) = false) names ->
  Sqlite.column_schema (combine (map Str.quote names) types) = Some (combine names types).
Proof.
  intros Hn. revert types. induction Hn as [|n names Hq _ IH]; intros types; [reflexivity|].
  destruct types as [|ty types]; [reflexivity|].
  unfold Sqlite.column_schema in *. simpl. rewrite (identifier_quote n Hq). simpl.
  rewrite IH. reflexivity.
Qed.

Lemma same_name_refl (n : string) : Sqlite.same_name n n = true.
Proof. apply String.eqb_refl. Qed.

Lemma distinct_names_NoDup (names : list string) :
  Sqlite.distinct_names names = true -> List.NoDup names.
Proof.
  induction names as [|n names IH]; intros H; [constructor|].
  simpl in H. apply andb_prop in H as [Hn Hr]. constructor; [|apply IH; exact Hr].
  intros Hin. apply negb_true_iff in Hn.
  assert (existsb (Sqlite.same_name n) names = true); [|congruence].
  apply existsb_exists. exists n. split; [exact Hin | apply same_name_refl].
Qed.

Lemma NoDup_map_injective {A B : Type} (f : A -> B) (l : list A) (a b : A) :
  List.NoDup (map f l) -> In a l -> In b l -> f a = f b -> a = b.
Proof.
  induction l as [|x l IH]; intros Hnd Ha Hb Hf; [destruct Ha|].
  simpl in Hnd. apply List.NoDup_cons_iff in Hnd as [Hx Hnd].
  destruct Ha as [<-|Ha], Hb as [<-|Hb]; auto.
  - exfalso. apply Hx. rewrite Hf. apply in_map. exact Hb.
  - exfalso. apply Hx. rewrite <- Hf. apply in_map. exact Ha.
Qed.

Lemma map_fst_combine {A B : Type} (l : list A) (l' : list B) :
  List.length l' = List.length l -> map fst (combine l l') = l.
Proof.
  revert l'. induction l as [|a l IH]; intros [|b l'] H; try discriminate; [reflexivity|].
  simpl. f_equal. apply IH. simpl in H. congruence.
Qed.

(** C1, counterexample.  The headers Email! and Email# are distinct and both
    normalise to email: the mapping holds the same identifier twice, no
    suffix is appended, the store refuses the table, and no table with two
    columns exists afterwards. *)
Lemma colliding_headers_share_one_name :
  let run := Processor._create_table Samples.colliding_frame "contacts" Samples.fresh in
  Pandas.columns Samples.colliding_frame = ["Email!"; "Email#"]
  /\ Processor.column_mapping (snd run) = [("Email!", "email"); ("Email#", "email")]
  /\ fst run = Py.Raise Py.OperationalError
  /\ (exists c, Processor.connection (snd run) = Some c
                /\ Sqlite.working c !! "contacts" = None).
Proof.
  cbv zeta. split; [reflexivity|]. split; [vm_compute; reflexivity|].
  split; [vm_compute; reflexivity|].
  eexists. split; vm_compute; reflexivity.
Qed.

(** C1, as amended.  For a table with pairwise distinct headers the mapping
    built by [_create_table] has exactly one entry per header, in header
    order, and gives each header its normalised name as it is: nothing is
    appended, so headers that normalise alike share one identifier.  The
    column list of the CREATE TABLE has one definition per header, in order.
    When two headers share an identifier the statement fails with a database
    error and the file's table does not exist afterwards. *)
Theorem create_table_keeps_bare_names (df : Pandas.DataFrame) (table_name : string)
    (p : Processor.processor) (c : Sqlite.connection) :
  List.NoDup (Pandas.columns df) ->
  Processor.connection p = Some c ->
  Sqlite.closed c = false ->
  let q := Str.quote (Str.replace_char " " "_" table_name) in
  let r := fst (Processor._create_table df table_name p) in
  let p' := snd (Processor._create_table df table_name p) in
  Processor.column_mapping p'
  = map (fun h => (h, _normalize_column_name h)) (Pandas.columns df)
  /\ (forall h, In h (Pandas.columns df) ->
        Py.dict_get h (Processor.column_mapping p') = Some (_normalize_column_name h))
  /\ (exists c' types,
        Processor.connection p' = Some c'
        /\ List.length types = List.length (Pandas.columns df)
        /\ (forall k, Sqlite.table_key q = Some k ->
              exists rest,
                Sqlite.history c'
                = Sqlite.history c
                  ++ [Sqlite.Executed (Sqlite.DropTableIfExists q);
                      Sqlite.Executed
                        (Sqlite.CreateTableIfNotExists q
                           (combine (map (fun h => Str.quote (_normalize_column_name h))
                                       (Pandas.columns df)) types))]
                  ++ rest)
        /\ (forall h1 h2,
              In h1 (Pandas.columns df) -> In h2 (Pandas.columns df) -> h1 <> h2 ->
              _normalize_column_name h1 = _normalize_column_name h2 ->
              r = Py.Raise Py.OperationalError
              /\ forall k, Sqlite.table_key q = Some k -> Sqlite.working c' !! k = None)).
Proof.
  intros Hnd Hp Hc q r p'.
  assert (Ht : Summary.typed df (Pandas.columns df)) by (intros col; apply column_type_ok; exact Hnd).
  destruct (loop_columns_typed df (Pandas.columns df) [] Ht) as (types & Hl & Hcols).
  pose proof (loop_mapping_fresh df (Pandas.columns df) [] Ht Hnd) as Hm.
  simpl app in Hm, Hcols.
  assert (Hschema : Sqlite.column_schema
                      (combine (map (fun h => Str.quote (_normalize_column_name h))
                                  (Pandas.columns df)) types)
                    = Some (combine (map _normalize_column_name (Pandas.columns df)) types)).
  { rewrite <- (map_map _normalize_column_name Str.quote).
    apply column_schema_quoted. apply List.Forall_forall. intros n Hn.
    apply in_map_iff in Hn as (h & <- & _). apply normalize_no_dquote. }
  assert (Hnames : map fst (combine (map _normalize_column_name (Pandas.columns df)) types)
                   = map _normalize_column_name (Pandas.columns df)).
  { apply map_fst_combine. rewrite length_map. exact Hl. }
  unfold r, p'. rewrite (create_table_run df table_name p c Hp Hc). cbv zeta. fold q.
  rewrite Hcols, Hm, Hschema.
  destruct (Sqlite.table_key q) as [k|] eqn:Hk.
  2:{ cbn [fst snd Processor.column_mapping Processor.connection].
      split; [reflexivity|]. split; [intros h; apply dict_get_map|].
      eexists _, types. split; [reflexivity|]. split; [exact Hl|].
      split; [discriminate|]. intros h1 h2 _ _ _ _. split; [reflexivity | discriminate]. }
  destruct (combine (map _normalize_column_name (Pandas.columns df)) types)
    as [|col cols] eqn:Hsch.
  { cbn [fst snd Processor.column_mapping Processor.connection].
    split; [reflexivity|]. split; [intros h; apply dict_get_map|].
    eexists _, types. split; [reflexivity|]. split; [exact Hl|]. split.
    - intros k' _. exists []. reflexivity.
    - intros h1 h2 _ _ _ _. split; [reflexivity|].
      intros k' Hk'. injection Hk' as <-. apply lookup_delete_eq. }
  destruct (Sqlite.distinct_names (map fst (col :: cols))) eqn:Hd.
  - cbn [fst snd Processor.column_mapping Processor.connection].
    split; [reflexivity|]. split; [intros h; apply dict_get_map|].
    eexists _, types. split; [reflexivity|]. split; [exact Hl|]. split.
    + intros k' _. exists [Sqlite.Committed]. reflexivity.
    + intros h1 h2 H1 H2 Hne Heq. exfalso. apply Hne.
      apply distinct_names_NoDup in Hd. rewrite Hnames in Hd.
      exact (NoDup_map_injective _ _ _ _ Hd H1 H2 Heq).
  - cbn [fst snd Processor.column_mapping Processor.connection].
    split; [reflexivity|]. split; [intros h; apply dict_get_map|].
    eexists _, types. split; [reflexivity|]. split; [exact Hl|]. split.
    + intros k' _. exists []. reflexivity.
    + intros h1 h2 _ _ _ _. split; [reflexivity|].
      intros k' Hk'. injection Hk' as <-. apply lookup_delete_eq.
Qed.

(** A witness: the table with the two e-mail headers, on a fresh connection. *)
Lemma create_table_keeps_bare_names_witness :
  Processor.column_mapping
    (snd (Processor._create_table Samples.colliding_frame "contacts" Samples.fresh))
  = [("Email!", "email"); ("Email#", "email")].
Proof.
  assert (Hnd : List.NoDup (Pandas.columns Samples.colliding_frame)).
  { repeat constructor; simpl; intuition discriminate. }
  exact (proj1 (create_table_keeps_bare_names Samples.colliding_frame "contacts"
                  Samples.fresh (Sqlite.connect ∅) Hnd eq_refl eq_refl)).
Defined.

(** ** A run, file after file *)

Lemma apply_closed (e : Summary.effect) (evs : list Sqlite.event) (c : Sqlite.connection) :
  Sqlite.closed (Summary.apply e evs c) = Sqlite.closed c.
Proof. destruct e; reflexivity. Qed.


Lemma connection_after_closed (files : list Csv.SourceFile) (c : Sqlite.connection) :
  Sqlite.closed (Summary.connection_after files c) = Sqlite.closed c.
Proof.
  revert c. induction files as [|f rest IH]; intros c; [reflexivity|].
  simpl. rewrite IH. apply apply_closed.
Qed.









(** ** Ingesting a file again *)






(** ** Commits and the next file *)




(** ** More on the normalised names *)

Lemma tokens_nonempty (p : ascii -> bool) (l : list ascii) :
  Forall (fun t => t <> []) (Words.tokens p l).
Proof.
  induction l as [|c l IH]; simpl; [constructor|].
  destruct (p c); [exact IH|].
  destruct l as [|d l']; [repeat constructor; discriminate|].
  destruct (p d).
  - constructor; [discriminate | exact IH].
  - destruct (Words.tokens p (d :: l')) as [|t ts].
    + repeat constructor. discriminate.
    + inversion IH; subst. constructor; [discriminate | assumption].
Qed.

(** A word followed by the end or by a separator is the first token. *)
Lemma tokens_word (p : ascii -> bool) (w rest : list ascii) :
  w <> [] -> Forall (fun c => p c = false) w ->
  Words.starts_with p rest = true \/ rest = [] ->
  Words.tokens p (w ++ rest) = w :: Words.tokens p rest.
Proof.
  intros Hne Hw Hrest. induction Hw as [|c w Hc Hw IH]; [congruence|].
  destruct w as [|c' w'].
  - simpl. rewrite Hc. destruct rest as [|d rest']; [reflexivity|].
    destruct Hrest as [Hd|]; [|discriminate]. simpl in Hd. rewrite Hd. reflexivity.
  - assert (Hc' : p c' = false) by (inversion Hw; assumption).
    specialize (IH ltac:(discriminate)).
    change ((c :: c' :: w') ++ rest) with (c :: (c' :: w') ++ rest).
    change ((c' :: w') ++ rest) with (c' :: w' ++ rest) in IH |- *.
    change (Words.tokens p (c :: c' :: w' ++ rest)) with
      (if p c then Words.tokens p (c' :: w' ++ rest)
       else if p c' then [c] :: Words.tokens p (c' :: w' ++ rest)
            else match Words.tokens p (c' :: w' ++ rest) with
                 | t :: ts => (c :: t) :: ts
                 | [] => [[c]]
                 end).
    rewrite Hc, Hc', IH. reflexivity.
Qed.

Lemma tokens_sep_cons (p : ascii -> bool) (c : ascii) (l : list ascii) :
  p c = true -> Words.tokens p (c :: l) = Words.tokens p l.
Proof. intros H. simpl. rewrite H. reflexivity. Qed.

Lemma tokens_join (p : ascii -> bool) (u : ascii) (ts : list (list ascii)) :
  p u = true -> Forall (Loading.word_of p) ts ->
  Words.tokens p (Words.join u ts) = ts.
Proof.
  intros Hu. induction 1 as [|t ts [Hne Ht] Hts IH]; [reflexivity|].
  destruct ts as [|t' ts'].
  - simpl. rewrite <- (app_nil_r t) at 1. rewrite tokens_word; auto.
  - change (Words.join u (t :: t' :: ts')) with (t ++ u :: Words.join u (t' :: ts')).
    rewrite tokens_word; [|exact Hne|exact Ht|left; exact Hu].
    f_equal.
    rewrite tokens_sep_cons by exact Hu.
    exact IH.
Qed.

Lemma lower_char_idempotent (c : ascii) : Str.lower_char (Str.lower_char c) = Str.lower_char c.
Proof. by_cases_on_char c. Qed.

Lemma lower_char_alnum (c : ascii) :
  negb (Words.is_alnum c) = false -> negb (Words.is_alnum (Str.lower_char c)) = false.
Proof. by_cases_on_char c. Qed.

Lemma lower_char_name_char (c : ascii) :
  negb (Words.is_alnum c) = false ->
  Loading.is_name_char (Str.lower_char c) = true /\ Str.is_underscore (Str.lower_char c) = false.
Proof. by_cases_on_char c. Qed.


Lemma words_are_words (h : string) :
  Forall (Loading.word_of (fun c => negb (Words.is_alnum c))) (Words.words h).
Proof.
  unfold Words.words.
  pose proof (tokens_not_sep (fun c => negb (Words.is_alnum c)) (Str.chars h)) as Hs.
  pose proof (tokens_nonempty (fun c => negb (Words.is_alnum c)) (Str.chars h)) as Hn.
  induction Hs as [|t ts Ht _ IH]; [constructor|].
  inversion Hn as [|? ? Hne Hn']; subst. simpl. constructor; [|apply IH; exact Hn'].
  split.
  - destruct t; [congruence | discriminate].
  - clear -Ht. induction Ht as [|c t Hc _ IH]; simpl; constructor; [|exact IH].
    apply lower_char_alnum. exact Hc.
Qed.

Lemma words_lowered (h : string) :
  map (map Str.lower_char) (Words.words h) = Words.words h.
Proof.
  unfold Words.words. rewrite map_map. apply map_ext. intros t.
  rewrite map_map. apply map_ext. intros c. apply lower_char_idempotent.
Qed.

Lemma cleaned_idempotent (h : string) : Words.cleaned (Words.cleaned h) = Words.cleaned h.
Proof.
  unfold Words.cleaned at 1. unfold Words.words at 1.
  unfold Words.cleaned. rewrite chars_of_chars.
  rewrite (tokens_join _ "_" (Words.words h) eq_refl (words_are_words h)).
  rewrite words_lowered. reflexivity.
Qed.

Section Joined.

Variable p : ascii -> bool.
Variable u : ascii.
Hypothesis u_is_separator : p u = true.

Lemma join_nonempty (t : list ascii) (ts : list (list ascii)) :
  t <> [] -> Words.join u (t :: ts) <> [].
Proof.
  intros Hne. destruct ts as [|t' ts']; [exact Hne|].
  change (Words.join u (t :: t' :: ts')) with (t ++ u :: Words.join u (t' :: ts')).
  destruct t; [congruence | discriminate].
Qed.

Lemma join_starts (ts : list (list ascii)) :
  Forall (Loading.word_of p) ts -> Words.starts_with p (Words.join u ts) = false.
Proof.
  intros H. destruct H as [|t ts [Hne Ht] _]; [reflexivity|].
  destruct t as [|c t]; [congruence|].
  rewrite join_cons_cons. simpl. inversion Ht; assumption.
Qed.

Lemma word_ends (t : list ascii) :
  Loading.word_of p t -> Words.starts_with p (rev t) = false.
Proof.
  intros [Hne Ht]. destruct (rev t) as [|x r] eqn:E.
  - reflexivity.
  - simpl. apply (proj1 (List.Forall_forall _ _) Ht).
    apply in_rev. rewrite E. left. reflexivity.
Qed.

Lemma starts_with_app (a b : list ascii) :
  a <> [] -> Words.starts_with p (a ++ b) = Words.starts_with p a.
Proof. destruct a; [congruence | reflexivity]. Qed.

Lemma join_ends (ts : list (list ascii)) :
  Forall (Loading.word_of p) ts -> Words.starts_with p (rev (Words.join u ts)) = false.
Proof.
  induction 1 as [|t ts Hw Hts IH]; [reflexivity|].
  destruct ts as [|t' ts']; [apply word_ends; exact Hw|].
  change (Words.join u (t :: t' :: ts')) with (t ++ u :: Words.join u (t' :: ts')).
  rewrite rev_app_distr. simpl rev. rewrite <- !app_assoc.
  rewrite starts_with_app; [exact IH|].
  intros E. apply (f_equal (@rev ascii)) in E. rewrite rev_involutive in E.
  inversion Hts as [|? ? [Hne _] _]; subst.
  exact (join_nonempty t' ts' Hne E).
Qed.

Lemma has_adjacent_word (w rest : list ascii) :
  (forall a, Ascii.eqb a u = true -> p a = true) ->
  Forall (fun c => p c = false) w ->
  Loading.has_adjacent u (w ++ rest) = Loading.has_adjacent u rest.
Proof.
  intros Hu Hw. induction Hw as [|c w Hc _ IH]; [reflexivity|].
  assert (Ec : Ascii.eqb c u = false).
  { destruct (Ascii.eqb c u) eqn:E; [|reflexivity]. rewrite (Hu c E) in Hc. discriminate. }
  change ((c :: w) ++ rest) with (c :: w ++ rest).
  destruct (w ++ rest) as [|b r] eqn:E.
  - rewrite <- IH. reflexivity.
  - change (Loading.has_adjacent u (c :: b :: r))
      with ((Ascii.eqb c u && Ascii.eqb b u) || Loading.has_adjacent u (b :: r)).
    rewrite Ec. simpl orb. exact IH.
Qed.

Lemma join_no_adjacent (ts : list (list ascii)) :
  (forall a, Ascii.eqb a u = true -> p a = true) ->
  Forall (Loading.word_of p) ts -> Loading.has_adjacent u (Words.join u ts) = false.
Proof.
  intros Hu. induction 1 as [|t ts [Hne Ht] Hts IH]; [reflexivity|].
  destruct ts as [|t' ts'].
  - simpl Words.join. rewrite <- (app_nil_r t). rewrite has_adjacent_word; auto.
  - change (Words.join u (t :: t' :: ts')) with (t ++ u :: Words.join u (t' :: ts')).
    rewrite has_adjacent_word by auto.
    pose proof (join_starts (t' :: ts') Hts) as Hs.
    destruct (Words.join u (t' :: ts')) as [|j js] eqn:E; [reflexivity|].
    change (Loading.has_adjacent u (u :: j :: js))
      with ((Ascii.eqb u u && Ascii.eqb j u) || Loading.has_adjacent u (j :: js)).
    rewrite IH, orb_false_r.
    simpl in Hs. destruct (Ascii.eqb j u) eqn:Ej; [|apply andb_false_r].
    rewrite (Hu j Ej) in Hs. discriminate.
Qed.

End Joined.

Lemma forallb_join (P : ascii -> bool) (u : ascii) (ts : list (list ascii)) :
  P u = true -> Forall (fun t => forallb P t = true) ts ->
  forallb P (Words.join u ts) = true.
Proof.
  intros Hu. induction 1 as [|t ts Ht _ IH]; [reflexivity|].
  destruct ts as [|t' ts']; [exact Ht|].
  change (Words.join u (t :: t' :: ts')) with (t ++ u :: Words.join u (t' :: ts')).
  rewrite forallb_app. cbn [forallb]. rewrite Ht, Hu, IH. reflexivity.
Qed.

Lemma words_name_chars (h : string) :
  Forall (fun t => forallb Loading.is_name_char t = true) (Words.words h).
Proof.
  unfold Words.words.
  pose proof (tokens_not_sep (fun c => negb (Words.is_alnum c)) (Str.chars h)) as Hs.
  induction Hs as [|t ts Ht _ IH]; [constructor|].
  simpl. constructor; [|exact IH].
  clear -Ht. induction Ht as [|c t Hc _ IH]; [reflexivity|].
  simpl. rewrite (proj1 (lower_char_name_char c Hc)). exact IH.
Qed.

(** The shape of a cleaned name. *)
Lemma cleaned_shape (h : string) :
  let n := Str.chars (Words.cleaned h) in
  forallb Loading.is_name_char n = true
  /\ Words.starts_with Str.is_underscore n = false
  /\ Words.starts_with Str.is_underscore (rev n) = false
  /\ Loading.has_adjacent "_" n = false.
Proof.
  cbv zeta. unfold Words.cleaned. rewrite chars_of_chars.
  assert (Hw : Forall (Loading.word_of Str.is_underscore) (Words.words h)).
  { eapply List.Forall_impl; [|apply words_are_words].
    intros t [Hne Ht]. split; [exact Hne|].
    eapply List.Forall_impl; [|exact Ht].
    intros c Hc. cbv beta in Hc.
    destruct (Str.is_underscore c) eqn:E; [|reflexivity].
    apply Ascii.eqb_eq in E. subst c. discriminate. }
  split; [apply forallb_join; [reflexivity | apply words_name_chars]|].
  split; [apply join_starts; exact Hw|].
  split; [apply join_ends; exact Hw|].
  apply (join_no_adjacent Str.is_underscore); [intros a Ha; exact Ha | exact Hw].
Qed.

Lemma normalized_name_shape_aux (header : string) :
  let n := Str.chars (_normalize_column_name header) in
  forallb Loading.is_name_char n = true
  /\ Words.starts_with Str.is_underscore n = false
  /\ Words.starts_with Str.is_underscore (rev n) = false
  /\ Loading.has_adjacent "_" n = false.
Proof.
  cbv zeta. rewrite normalize_remap. unfold Words.remap.
  repeat (match goal with |- context [if String.eqb ?a ?b then _ else _] =>
            destruct (String.eqb a b) end;
          [vm_compute; repeat split; reflexivity|]).
  apply cleaned_shape.
Qed.

(** X1.  Every normalised name consists of lower-case letters, digits and
    underscores, neither starts nor ends with an underscore and has no two
    underscores in a row. *)
Theorem normalized_name_shape (header : string) :
  let n := Str.chars (_normalize_column_name header) in
  forallb Loading.is_name_char n = true
  /\ Words.starts_with Str.is_underscore n = false
  /\ Words.starts_with Str.is_underscore (rev n) = false
  /\ Loading.has_adjacent "_" n = false.
Proof. exact (normalized_name_shape_aux header). Qed.

(** X2.  Normalising a normalised name changes nothing. *)
Theorem normalize_is_idempotent (header : string) :
  _normalize_column_name (_normalize_column_name header) = _normalize_column_name header.
Proof.
  rewrite (normalize_remap header).
  assert (Hn : _normalize_column_name (Words.cleaned header)
               = Words.remap (Words.cleaned header))
    by (rewrite normalize_remap, cleaned_idempotent; reflexivity).
  unfold Words.remap in Hn |- *.
  destruct (String.eqb (Words.cleaned header) "date"); [vm_compute; reflexivity|].
  destruct (String.eqb (Words.cleaned header) "from"); [vm_compute; reflexivity|].
  destruct (String.eqb (Words.cleaned header) "to"); [vm_compute; reflexivity|].
  destruct (String.eqb (Words.cleaned header) "text"); [vm_compute; reflexivity|].
  exact Hn.
Qed.

(** X3.  A normalised name is never one of date, from, to and text; the
    debug output that [_normalize_column_name] prints for the name text is
    never printed. *)
Theorem normalized_name_is_not_reserved (header : string) :
  Str.mem (_normalize_column_name header) ["date"; "from"; "to"; "text"] = false.
Proof.
  rewrite normalize_remap. unfold Words.remap.
  repeat (match goal with |- context [if String.eqb ?a ?b then _ else _] =>
            destruct (String.eqb a b) eqn:?E end;
          [vm_compute; reflexivity|]).
  unfold Str.mem. simpl. rewrite E, E0, E1, E2. reflexivity.
Qed.

(** X4.  The normalised name is empty exactly when the header has no ASCII
    letter and no digit. *)
Theorem normalized_name_empty (header : string) :
  _normalize_column_name header = ""
  <-> forallb (fun c => negb (Words.is_alnum c)) (Str.chars header) = true.
Proof.
  rewrite normalize_remap, <- tokens_nil.
  assert (Hc : Words.cleaned header = ""
               <-> Words.tokens (fun c => negb (Words.is_alnum c)) (Str.chars header) = []).
  { unfold Words.cleaned, Words.words.
    destruct (Words.tokens _ (Str.chars header)) as [|t ts] eqn:Et.
    - simpl. tauto.
    - split; [|discriminate]. intros H. exfalso.
      apply (f_equal Str.chars) in H. rewrite chars_of_chars in H.
      pose proof (tokens_nonempty (fun c => negb (Words.is_alnum c)) (Str.chars header)) as Hn.
      rewrite Et in Hn. inversion Hn as [|? ? Hne _]; subst.
      simpl map in H. apply (join_nonempty "_" (map Str.lower_char t)) in H; [exact H|].
      destruct t; [congruence | discriminate]. }
  rewrite <- Hc. clear Hc. unfold Words.remap.
  destruct (String.eqb (Words.cleaned header) "date") eqn:E0;
    [apply String.eqb_eq in E0; rewrite E0; split; discriminate|].
  destruct (String.eqb (Words.cleaned header) "from") eqn:E1;
    [apply String.eqb_eq in E1; rewrite E1; split; discriminate|].
  destruct (String.eqb (Words.cleaned header) "to") eqn:E2;
    [apply String.eqb_eq in E2; rewrite E2; split; discriminate|].
  destruct (String.eqb (Words.cleaned header) "text") eqn:E3;
    [apply String.eqb_eq in E3; rewrite E3; split; discriminate|].
  reflexivity.
Qed.


(** ** Loading a well-formed frame *)


















(** ** The parse attempts, once more *)

(** X7.  The six nested attempts of [process_directory] amount to four: an
    attempt with the double quote as quote character repeats, with the same
    arguments, the call that has just raised ParserError, so it raises again.
    The outcome is that of the first of the four distinct calls that does not
    raise ParserError, and that of the manual method when all four do.  So
    [df] is never None after the attempts (the ValueError of the loop body
    is never raised), and an exception that leaves them is not a
    ParserError. *)
Theorem parse_attempts_collapse (f : Csv.SourceFile) :
  Processor.parse_file f = Loading.first_decisive f Loading.distinct_attempts
  /\ Processor.parse_file f <> Py.Ok (Processor.Frame None)
  /\ (forall e, Processor.parse_file f = Py.Raise e -> Py.is_ParserError e = false).
Proof.
  assert (H : Processor.parse_file f = Loading.first_decisive f Loading.distinct_attempts).
  { unfold Processor.parse_file, Processor.attempt, Py.try_except.
    change (Csv.quoting Csv.utf_8) with (Csv.default Csv.utf_8).
    change (Csv.quoting Csv.latin1) with (Csv.default Csv.latin1).
    simpl Loading.first_decisive.
    destruct (Csv.read_csv f (Csv.default Csv.utf_8)) as [df|e1]; [reflexivity|].
    destruct (Py.is_ParserError e1); [|reflexivity].
    destruct (Csv.read_csv f (Csv.semicolon Csv.utf_8)) as [df|e2]; [reflexivity|].
    destruct (Py.is_ParserError e2); [|reflexivity].
    destruct (Csv.read_csv f (Csv.default Csv.latin1)) as [df|e3]; [reflexivity|].
    destruct (Py.is_ParserError e3); [|reflexivity].
    destruct (Csv.read_csv f (Csv.semicolon Csv.latin1)) as [df|e4]; [reflexivity|].
    destruct (Py.is_ParserError e4); [|reflexivity].
    destruct (Csv.manual_parse f); reflexivity. }
  split; [exact H|]. rewrite H. simpl.
  split.
  - repeat (match goal with
            | |- context [match ?x with _ => _ end] => destruct x eqn:?
            end; try discriminate).
  - intros e.
    repeat (match goal with
            | |- context [match ?x with _ => _ end] => destruct x eqn:?
            end; try discriminate);
      intros He; injection He as <-; assumption.
Qed.

(** ** What the methods leave alone *)

Lemma executemany_committed (st : Sqlite.statement) (data : list (list Pandas.value))
    (c : Sqlite.connection) :
  Sqlite.committed (snd (Sqlite.executemany st data c)) = Sqlite.committed c.
Proof.
  unfold Sqlite.executemany.
  destruct (Sqlite.closed c); [reflexivity|]. cbv zeta.
  destruct st; try reflexivity.
  destruct (Sqlite.table_key table_name); [|reflexivity].
  destruct (Pandas.all_some Sqlite.identifier column_names) as [[|n ns]|]; try reflexivity.
  destruct (_ !! _); [|reflexivity].
  destruct (forallb _ _); [|reflexivity].
  match goal with |- context [Sqlite.insert_rows ?k ?tc ?ic ?d ?c0] =>
    destruct (insert_rows_frame k tc ic d c0) as (_ & _ & Hm & _) end.
  cbv zeta in Hm. rewrite Hm. reflexivity.
Qed.

Lemma pragma_committed (q : string) (c : Sqlite.connection) :
  Sqlite.committed (snd (Sqlite.execute (Sqlite.PragmaTableInfo q) c)) = Sqlite.committed c.
Proof.
  unfold Sqlite.execute. destruct (Sqlite.closed c); [reflexivity|]. cbv zeta.
  destruct (Sqlite.table_key q); reflexivity.
Qed.

Lemma commit_result (c : Sqlite.connection) :
  match fst (Sqlite.commit c) with
  | Py.Ok _ =>
      Sqlite.committed (snd (Sqlite.commit c)) = Sqlite.working (snd (Sqlite.commit c))
      /\ Sqlite.in_transaction (snd (Sqlite.commit c)) = false
  | Py.Raise _ => snd (Sqlite.commit c) = c
  end.
Proof. unfold Sqlite.commit. destruct (Sqlite.closed c); simpl; auto. Qed.

(** X8.  [_insert_data] commits all or nothing.  When it raises, whatever
    the exception, the store holds exactly what it held before the call:
    rows written by the batch up to the failure are not committed.  When it
    returns, no transaction is open and the store holds what the connection
    sees. *)
Theorem insert_data_commits_all_or_nothing (df : Pandas.DataFrame) (table_name : string)
    (p : Processor.processor) :
  let after := snd (Processor._insert_data df table_name p) in
  match fst (Processor._insert_data df table_name p) with
  | Py.Raise _ => forall k, Processor.stored_table after k = Processor.stored_table p k
  | Py.Ok _ =>
      (forall k, Processor.stored_table after k = Processor.visible_table after k)
      /\ Processor.transaction_open after = false
  end.
Proof.
  cbv zeta.
  remember (Processor._insert_data df table_name p) as res eqn:E.
  unfold Processor._insert_data in E.
  unfold Processor.bind at 1, Processor.get_column_mapping in E.
  unfold Processor.bind at 1, Processor.on_connection at 1 in E.
  destruct (Processor.connection p) as [c|] eqn:Hp.
  2:{ subst res. simpl. reflexivity. }
  set (q := Str.quote (Str.replace_char " " "_" table_name)) in E.
  pose proof (pragma_committed q c) as Hq.
  destruct (Sqlite.execute (Sqlite.PragmaTableInfo q) c) as [[names|e] c1].
  2:{ subst res. simpl in *. intros k. unfold Processor.stored_table. simpl.
      rewrite Hp, Hq. reflexivity. }
  unfold Processor.bind at 1 in E. cbn [Processor.connection Processor.column_mapping] in E.
  rewrite try_except_reraise in E.
  unfold Processor.bind, Processor.on_connection in E.
  cbn [Processor.connection Processor.column_mapping] in E.
  match type of E with context [Sqlite.executemany ?st ?d c1] =>
    pose proof (executemany_committed st d c1) as Hm;
    destruct (Sqlite.executemany st d c1) as [[[]|e] c2]
  end.
  2:{ subst res. simpl in *. intros k. unfold Processor.stored_table. simpl.
      rewrite Hp, Hm, Hq. reflexivity. }
  cbn [Processor.connection Processor.column_mapping] in E.
  pose proof (commit_result c2) as Hc.
  destruct (Sqlite.commit c2) as [[[]|e] c3]; subst res; simpl in Hc |- *.
  - destruct Hc as [Hc1 Hc2].
    unfold Processor.stored_table, Processor.visible_table, Processor.transaction_open.
    simpl. rewrite Hc1. split; [reflexivity | exact Hc2].
  - subst c3. intros k. unfold Processor.stored_table. simpl in *.
    rewrite Hp, Hm, Hq. reflexivity.
Qed.

Lemma loop_mapping_keys (df : Pandas.DataFrame) (cols : list string) (m : Py.dict string)
    (key : string) :
  In key (map fst (Summary.loop_mapping df cols m)) -> In key (map fst m) \/ In key cols.
Proof.
  revert m. induction cols as [|col rest IH]; intros m H; [left; exact H|].
  assert (Hset : forall k, In k (map fst (Py.dict_set col (_normalize_column_name col) m)) ->
                           In k (map fst m) \/ k = col).
  { clear. induction m as [|[k' v'] m IH]; intros k H.
    - simpl in H. destruct H as [H|[]]. right. symmetry. exact H.
    - simpl in H. destruct (String.eqb k' col) eqn:E; simpl in H.
      + apply String.eqb_eq in E. subst k'. destruct H as [H|H]; [right; symmetry; exact H|].
        left. right. exact H.
      + destruct H as [H|H]; [left; left; exact H|].
        destruct (IH k H) as [H'|H']; [left; right; exact H' | right; exact H']. }
  simpl in H. destruct (Summary.column_type df col).
  - destruct (IH _ H) as [H'|H']; [|right; right; exact H'].
    destruct (Hset key H') as [H''|H'']; [left; exact H'' | right; left; symmetry; exact H''].
  - destruct (Hset key H) as [H'|H']; [left; exact H' | right; left; symmetry; exact H'].
Qed.

Lemma create_table_mapping (df : Pandas.DataFrame) (table_name : string)
    (p : Processor.processor) :
  Processor.column_mapping (snd (Processor._create_table df table_name p))
  = Summary.loop_mapping df (Pandas.columns df) [].
Proof.
  unfold Processor._create_table.
  unfold Processor.bind at 1, Processor.set_column_mapping.
  unfold Processor.bind at 1. rewrite create_table_columns_run. project.
  destruct (Summary.loop_columns df (Pandas.columns df) []) as [columns|e]; [|reflexivity].
  rewrite create_debug_branch_dead.
  unfold Processor.bind at 1, Processor.ret. rewrite try_except_reraise.
  unfold Processor.bind, Processor.on_connection. project.
  destruct (Processor.connection p) as [c|]; [|reflexivity].
  destruct (Sqlite.execute _ c) as [[r1|e1] c1]; [|reflexivity]. project.
  destruct (Sqlite.execute _ c1) as [[r2|e2] c2]; [|reflexivity]. project.
  destruct (Sqlite.commit c2) as [[r3|e3] c3]; reflexivity.
Qed.

Lemma insert_data_mapping (df : Pandas.DataFrame) (table_name : string)
    (p : Processor.processor) :
  Processor.column_mapping (snd (Processor._insert_data df table_name p))
  = Processor.column_mapping p.
Proof.
  unfold Processor._insert_data.
  unfold Processor.bind at 1, Processor.get_column_mapping.
  unfold Processor.bind at 1, Processor.on_connection at 1.
  destruct (Processor.connection p) as [c|]; [|reflexivity].
  destruct (Sqlite.execute _ c) as [[names|e] c1]; [|reflexivity].
  unfold Processor.bind at 1. project. rewrite try_except_reraise.
  unfold Processor.bind, Processor.on_connection. project.
  destruct (Sqlite.executemany _ _ c1) as [[r1|e1] c2]; [|reflexivity]. project.
  destruct (Sqlite.commit c2) as [[r2|e2] c3]; reflexivity.
Qed.

(** X9.  The column mapping is rebuilt for every parsed file: after the turn
    of a file that was parsed, the mapping is the one built from the file's
    own headers, whatever mapping the previous file left and whatever the
    state of the connection, and each of its keys is a header of the file.
    After the turn of a file that could not be parsed the mapping of the
    previous file is still in place. *)
Theorem column_mapping_is_rebuilt (f : Csv.SourceFile) (p : Processor.processor) :
  let after := Processor.column_mapping (snd (Processor.process_file f p)) in
  match Processor.parse_file f with
  | Py.Ok (Processor.Frame (Some df0)) =>
      let df := Processor.drop_missing_first df0 in
      after = Summary.loop_mapping df (Pandas.columns df) []
      /\ (forall key, In key (map fst after) -> In key (Pandas.columns df))
      /\ (forall h, In h (Pandas.columns df) -> List.NoDup (Pandas.columns df) ->
            Py.dict_get h after = Some (_normalize_column_name h))
  | _ => after = Processor.column_mapping p
  end.
Proof.
  cbv zeta.
  remember (Processor.process_file f p) as res eqn:E.
  unfold Processor.process_file, Processor.try_except, Processor.process_file_body in E.
  unfold Processor.bind at 1, Processor.lift in E.
  destruct (Processor.parse_file f) as [[[df0|]|e]|e]; try (subst res; reflexivity).
  assert (Hm : Processor.column_mapping (snd res)
               = Summary.loop_mapping (Processor.drop_missing_first df0)
                   (Pandas.columns (Processor.drop_missing_first df0)) []).
  { subst res. unfold Processor.bind at 1, Processor.ret at 1. unfold Processor.bind at 1.
    pose proof (create_table_mapping (Processor.drop_missing_first df0)
                  (Str.lower (Csv.stem f)) p) as H1.
    destruct (Processor._create_table _ _ p) as [[[]|e] p1]; simpl in H1.
    - unfold Processor.bind at 1.
      pose proof (insert_data_mapping (Processor.drop_missing_first df0)
                    (Str.lower (Csv.stem f)) p1) as H2.
      destruct (Processor._insert_data _ _ p1) as [[[]|e] p2]; simpl in H2 |- *; congruence.
    - simpl. exact H1. }
  rewrite Hm. set (df := Processor.drop_missing_first df0).
  split; [reflexivity|]. split.
  - intros key Hkey. destruct (loop_mapping_keys df _ [] key Hkey) as [[]|H]. exact H.
  - intros h Hh Hnd.
    rewrite (loop_mapping_fresh df (Pandas.columns df) []).
    + apply dict_get_map. exact Hh.
    + intros col. apply column_type_ok. exact Hnd.
    + exact Hnd.
Qed.

(** ** Tables that a run does not name *)








(** ** The manual method *)

Lemma of_chars_app (a b : list ascii) :
  Str.of_chars (a ++ b) = Str.of_chars a +:+ Str.of_chars b.
Proof.
  induction a as [|c a IH]; [reflexivity|].
  change (String c (Str.of_chars (a ++ b)) = String c (Str.of_chars a +:+ Str.of_chars b)).
  rewrite IH. reflexivity.
Qed.

Lemma split_chars_nonempty (cur l : list ascii) : Csv.split_chars cur l <> [].
Proof.
  revert cur. induction l as [|c r IH]; intros cur; simpl; [discriminate|].
  destruct (_ && _); [discriminate | apply IH].
Qed.

Lemma split_chars_concat (cur l : list ascii) :
  String.concat "," (Csv.split_chars cur l) = Str.of_chars (rev cur ++ l).
Proof.
  revert cur. induction l as [|c r IH]; intros cur.
  - simpl. rewrite app_nil_r. reflexivity.
  - simpl Csv.split_chars. destruct (Ascii.eqb c "," && Csv.splits_here r) eqn:E.
    + apply andb_prop in E as [Ec _]. apply Ascii.eqb_eq in Ec. subst c.
      pose proof (IH []) as H. pose proof (split_chars_nonempty [] r) as Hne.
      destruct (Csv.split_chars [] r) as [|y ys]; [congruence|].
      change (String.concat "," (Str.of_chars (rev cur) :: y :: ys))
        with (Str.of_chars (rev cur) +:+ "," +:+ String.concat "," (y :: ys)).
      rewrite H. change (rev [] ++ r) with r.
      rewrite (of_chars_app (rev cur)). reflexivity.
    + rewrite IH. simpl rev. rewrite <- app_assoc. reflexivity.
Qed.

Lemma lookahead_without_quotes (l : list ascii) :
  existsb Sqlite.is_dquote l = false -> Csv.lookahead 0 l = true.
Proof.
  induction l as [|c r IH]; intros H; [reflexivity|].
  simpl in H |- *. apply orb_false_elim in H as [Hc Hr].
  unfold Sqlite.is_dquote in Hc. rewrite Hc, (IH Hr). reflexivity.
Qed.

Lemma split_chars_without_quotes (cur l : list ascii) :
  existsb Sqlite.is_dquote l = false ->
  existsb (fun c => Ascii.eqb c ",") cur = false ->
  Forall (fun piece => existsb (fun c => Ascii.eqb c ",") (Str.chars piece) = false)
    (Csv.split_chars cur l).
Proof.
  revert cur. induction l as [|c r IH]; intros cur Hq Hcur.
  - simpl. constructor; [|constructor]. rewrite chars_of_chars, existsb_rev. exact Hcur.
  - simpl in Hq. apply orb_false_elim in Hq as [_ Hr]. simpl Csv.split_chars.
    unfold Csv.splits_here. rewrite (lookahead_without_quotes r Hr), orb_true_r, andb_true_r.
    destruct (Ascii.eqb c ",") eqn:Ec.
    + constructor; [rewrite chars_of_chars, existsb_rev; exact Hcur|].
      apply IH; [exact Hr | reflexivity].
    + apply IH; [exact Hr|]. simpl. rewrite Ec. exact Hcur.
Qed.

(** X11.  The pattern of the manual method only cuts: joining the pieces of
    a line with commas gives the line back, and there is always at least one
    piece.  In a line without a double quote every comma is a cut, so no
    piece contains a comma. *)
Theorem re_split_round_trip (line : string) :
  String.concat "," (Csv.re_split line) = line
  /\ 1 <= List.length (Csv.re_split line)
  /\ (existsb Sqlite.is_dquote (Str.chars line) = false ->
      Forall (fun piece => existsb (fun c => Ascii.eqb c ",") (Str.chars piece) = false)
        (Csv.re_split line)).
Proof.
  unfold Csv.re_split. split; [|split].
  - rewrite split_chars_concat. apply of_chars_chars.
  - pose proof (split_chars_nonempty [] (Str.chars line)) as H.
    destruct (Csv.split_chars [] (Str.chars line)); [congruence | simpl; lia].
  - intros Hq. apply split_chars_without_quotes; [exact Hq | reflexivity].
Qed.

Lemma width_bound (data : list (list string)) (r : list string) :
  In r data -> List.length r <= Pandas.width data.
Proof.
  induction data as [|x data IH]; intros Hin; [destruct Hin|].
  simpl. destruct Hin as [<-|Hin]; [lia|]. specialize (IH Hin). lia.
Qed.

Lemma pad_row_shape (w : nat) (r : list string) :
  r <> [] -> List.length r <= w ->
  List.length (Pandas.pad_row w r) = w
  /\ exists s rest, Pandas.pad_row w r = Pandas.Str s :: rest.
Proof.
  intros Hne Hl. unfold Pandas.pad_row. split.
  - rewrite length_app, length_map, repeat_length. lia.
  - destruct r as [|s r]; [congruence|]. simpl. eauto.
Qed.

(** X12.  A frame that the manual method returns has at least one column,
    all its columns are of dtype object, every row has one cell per header
    and starts with a string.  So, when the first header is not repeated,
    dropping the rows without a first value drops nothing. *)
Theorem manual_frame_shape (f : Csv.SourceFile) (df : Pandas.DataFrame) :
  Csv.manual_parse f = Py.Ok df ->
  Pandas.columns df <> []
  /\ Forall (fun cd => snd cd = Pandas.object_) (Pandas.columns_of df)
  /\ Forall (fun row => List.length row = List.length (Pandas.columns df)
                        /\ exists s rest, row = Pandas.Str s :: rest) (Pandas.rows df)
  /\ (forall first rest, Pandas.columns df = first :: rest -> ~ In first rest ->
        Processor.drop_missing_first df = df).
Proof.
  intros Hm.
  assert (Hshape : Pandas.columns df <> []
                   /\ Forall (fun cd => snd cd = Pandas.object_) (Pandas.columns_of df)
                   /\ Forall (fun row => List.length row = List.length (Pandas.columns df)
                                         /\ exists s rest, row = Pandas.Str s :: rest)
                        (Pandas.rows df)).
  { unfold Csv.manual_parse in Hm.
    destruct (Csv.readlines f) as [lines|e]; [|discriminate].
    set (kept := map (Str.strip Str.is_space) _) in Hm.
    assert (Hpieces : Forall (fun r => r <> []) (map Csv.re_split kept)).
    { apply List.Forall_forall. intros r Hr. apply in_map_iff in Hr as (line & <- & _).
      apply split_chars_nonempty. }
    destruct (map Csv.re_split kept) as [|header records]; [discriminate|].
    inversion Hpieces as [|? ? Hh Hrec]; subst.
    assert (Hobj : forall hs : list string,
               Forall (fun cd : string * Pandas.dtype => snd cd = Pandas.object_)
                 (map (fun h => (h, Pandas.object_)) hs)).
    { intros hs. induction hs; constructor; [reflexivity | assumption]. }
    assert (Hlabels : forall hs : list string,
               map fst (map (fun h => (h, Pandas.object_)) hs) = hs).
    { intros hs. rewrite map_map. apply map_id. }
    unfold Pandas.DataFrame_of_records in Hm.
    destruct records as [|r records].
    - injection Hm as <-. unfold Pandas.columns. simpl. rewrite Hlabels.
      split; [exact Hh|]. split; [apply Hobj | constructor].
    - remember (r :: records) as data eqn:Edata. clear Edata.
      destruct (Nat.eqb _ _) eqn:Ew; [|discriminate]. apply Nat.eqb_eq in Ew.
      injection Hm as <-. unfold Pandas.columns. cbn [Pandas.columns_of Pandas.rows].
      rewrite Hlabels. split; [exact Hh|]. split; [apply Hobj|].
      apply List.Forall_forall. intros row Hrow.
      apply in_map_iff in Hrow as (x & <- & Hx).
      rewrite <- Ew. apply pad_row_shape.
      + exact (proj1 (List.Forall_forall _ _) Hrec x Hx).
      + apply width_bound. exact Hx. }
  destruct Hshape as (Hne & Hobj & Hrows).
  split; [exact Hne|]. split; [exact Hobj|]. split; [exact Hrows|].
  intros first rest Hcols Hfresh.
  unfold Processor.drop_missing_first. rewrite Hcols. unfold Pandas.dropna.
  assert (Hkeep : List.filter
                    (fun r => negb (Pandas.row_has_na (Pandas.columns df) [first] r))
                    (Pandas.rows df) = Pandas.rows df).
  { rewrite Hcols. revert Hrows. generalize (Pandas.rows df) as rws.
    induction rws as [|row rws IH]; intros Hrows; [reflexivity|].
    inversion Hrows as [|? ? [_ (s & tail & Hrow)] Hrest]; subst.
    simpl List.filter. rewrite row_has_na_cells.
    unfold Pandas.cells_at at 1, Pandas.items. simpl. rewrite String.eqb_refl. simpl.
    fold (Pandas.items rest tail). fold (Pandas.cells_at rest tail first).
    rewrite (cells_at_absent rest tail first Hfresh). simpl.
    f_equal. apply IH. exact Hrest. }
  rewrite Hkeep. destruct df; reflexivity.
Qed.

(** A witness: the file with the unterminated quote. *)
Lemma manual_frame_shape_witness :
  Processor.drop_missing_first
    {| Pandas.columns_of := [("a", Pandas.object_); ("b", Pandas.object_)];
       Pandas.rows := [[Pandas.Str ""; Pandas.Str "x"];
                       [Pandas.Str (String Str.dquote "unterminated"); Pandas.Str "1"]] |}
  = {| Pandas.columns_of := [("a", Pandas.object_); ("b", Pandas.object_)];
       Pandas.rows := [[Pandas.Str ""; Pandas.Str "x"];
                       [Pandas.Str (String Str.dquote "unterminated"); Pandas.Str "1"]] |}.
Proof.
  refine (proj2 (proj2 (proj2 (manual_frame_shape Samples.unterminated_file _ eq_refl)))
            "a" ["b"] eq_refl _).
  intros [H|[]]. discriminate.
Defined.

(** ** Turns that fail *)

(** X13.  A file that does not parse leaves the processor as it was: the
    turn ends with a report, and neither the connection nor the column
    mapping has changed, whatever they were. *)
Theorem unparsed_file_changes_nothing (f : Csv.SourceFile) (p : Processor.processor) :
  (forall e, Processor.parse_file f = Py.Raise e ->
     Processor.process_file f p = (Py.Ok (Processor.ErrorProcessing (Csv.name f) e), p))
  /\ (forall e, Processor.parse_file f = Py.Ok (Processor.Unreadable e) ->
        Processor.process_file f p = (Py.Ok (Processor.ErrorReading (Csv.name f) e), p)).
Proof.
  split; intros e He;
    unfold Processor.process_file, Processor.try_except, Processor.process_file_body;
    unfold Processor.bind at 1, Processor.lift; rewrite He.
  - destruct e; reflexivity.
  - reflexivity.
Qed.


